(** * Coverage classification and depth orchestration (bcbio/variation/coverage.py)

    A shallow embedding of [bcbio.variation.coverage]: the interval
    classifier, the mosdepth orchestrator with its transactional writes, the
    average-coverage cache and the percentile aggregator, followed by the
    properties stated about them.

    Conventions of the embedding.
    - Python [int] is [Z]; Python [float] is idealised as an exact rational
      ([Q]): binary64 rounding is outside the model.
    - Python exceptions are the constructors of [exn]; code that touches the
      file system, the clock, the logger or an external tool runs in the
      monad [M] over [world].
    - A path is the pair of its [os.path.dirname] and [os.path.basename].
    - Collaborators that the module only calls (pybedtools, pysam, readstats,
      the reference index, the mosdepth binary) are the fields of a record
      [collaborators], a parameter of the whole development. *)

From Stdlib Require Import ZArith QArith Qabs String Ascii List Sorted Lia.
From stdpp Require Import base option gmap strings pretty list fin_maps.

Local Open Scope string_scope.
Local Open Scope Z_scope.
Local Open Scope list_scope.

(** ** Python strings *)

Module PyStr.

(** [str.split()] with no argument: maximal runs of non-whitespace. *)
Fixpoint split_go (cur : option string) (s : string) : list string :=
  match s with
  | EmptyString => option_list (String.rev <$> cur)
  | String a s' =>
      if Ascii.is_space a
      then option_list (String.rev <$> cur) ++ split_go None s'
      else split_go (Some (String a (default EmptyString cur))) s'
  end.
Definition split (s : string) : list string := split_go None s.

(** [s.startswith(p)] *)
Definition startswith (p s : string) : bool := String.prefix p s.

(** [str(n)] and ["%s" % n] for an int. *)
Definition of_int (n : Z) : string := pretty n.

Definition digit (a : ascii) : option Z := Z.of_nat <$> Ascii.is_nat a.

(** Value of a non-empty run of decimal digits, most significant first. *)
Fixpoint digits_go (acc : Z) (s : string) : option Z :=
  match s with
  | EmptyString => Some acc
  | String a s' => d ← digit a; digits_go (10 * acc + d) s'
  end.
Definition digits (s : string) : option Z :=
  match s with EmptyString => None | _ => digits_go 0 s end.

(** Leading sign of a numeric literal: the sign and the rest. *)
Definition sign (s : string) : Z * string :=
  match s with
  | String "-" s' => (-1, s')
  | String "+" s' => (1, s')
  | _ => (1, s)
  end.

(** [int(s)] on a token (no surrounding blanks): an optional sign and
    decimal digits; [None] stands for ValueError. *)
Definition to_int (s : string) : option Z :=
  let '(sg, body) := sign s in n ← digits body; Some (sg * n).

(** Cut a string at the first character satisfying [f]. *)
Fixpoint break (f : ascii → bool) (s : string) : string * option string :=
  match s with
  | EmptyString => (EmptyString, None)
  | String a s' =>
      if f a then (EmptyString, Some s')
      else let '(l, r) := break f s' in (String a l, r)
  end.

Definition is_dot (a : ascii) : bool := Ascii.eqb a ".".
Definition is_e (a : ascii) : bool := Ascii.eqb a "e" || Ascii.eqb a "E".

(** Digits that may be absent (the integer or the fractional part). *)
Definition digits_opt (s : string) : option Z :=
  match s with EmptyString => Some 0 | _ => digits_go 0 s end.

Definition pow10 (e : Z) : Q :=
  if (0 <=? e)%Z then inject_Z (10 ^ e) else (1 / inject_Z (10 ^ (- e)))%Q.

(** [float(s)] on a token: [sign] digits [. digits] [e [sign] digits], at
    least one mantissa digit.  [None] stands for ValueError.  The special
    literals (inf, nan) have no rational value and are outside the model. *)
Definition to_float (s : string) : option Q :=
  let '(sg, body) := sign s in
  let '(mant, ex) := break is_e body in
  let '(ip, fp) := break is_dot mant in
  let fp := default EmptyString fp in
  if decide (ip = EmptyString ∧ fp = EmptyString) then None else
  i ← digits_opt ip;
  f ← digits_opt fp;
  e ← match ex with
      | None => Some 0
      | Some es => let '(esg, eb) := sign es in n ← digits eb; Some (esg * n)
      end;
  let scale := 10 ^ Z.of_nat (String.length fp) in
  Some (inject_Z sg * (inject_Z (i * scale + f) / inject_Z scale) * pow10 e)%Q.

(** Round a non-negative rational to the nearest integer, ties to even. *)
Definition round_half_even (q : Q) : Z :=
  let n := Qnum q in
  let d := Z.pos (Qden q) in
  let fl := n / d in
  let r := n mod d in
  if (2 * r <? d)%Z then fl
  else if (d <? 2 * r)%Z then fl + 1
  else if Z.even fl then fl else fl + 1.

(** ["%.1f" % q] *)
Definition fmt1 (q : Q) : string :=
  let t := round_half_even (Qabs q * inject_Z 10)%Q in
  (if Qlt_le_dec q 0%Q then "-" else "") +:+
  of_int (t / 10) +:+ "." +:+ of_int (t mod 10).

(** [int(q)]: truncation towards zero. *)
Definition trunc (q : Q) : Z := Z.quot (Qnum q) (Z.pos (Qden q)).

End PyStr.

(** ** Exceptions, the world and the monad of effects *)

Inductive exn :=
  | ZeroDivisionError
  | ValueError
  | TypeError
  | UnboundLocalError
  | IOError
  | CalledProcessError
  | Unmodelled.   (* behaviour the embedding does not describe *)

Inductive outcome (A : Type) :=
  | Ok (a : A)
  | Raise (e : exn).
Arguments Ok {A} a.
Arguments Raise {A} e.

(** A path, as [os.path.join (dirname) (basename)]. *)
Record path := Path { dirname : string; basename : string }.

Global Instance path_eq_dec : EqDecision path.
Proof. solve_decision. Defined.

Global Instance path_countable : Countable path.
Proof.
  refine (inj_countable' (λ p, (dirname p, basename p)) (λ t, Path t.1 t.2) _).
  by intros [].
Defined.

(** [os.path.join] of two directory components, and the string of a path. *)
Definition dir_join (a b : string) : string := a +:+ "/" +:+ b.
Definition path_str (p : path) : string := dir_join (dirname p) (basename p).
(** ["%s<suffix>" % p] *)
Definition add_suffix (p : path) (sfx : string) : path :=
  Path (dirname p) (basename p +:+ sfx).

(** What a file holds: text lines, or a flat YAML mapping (the text of a
    YAML document is not modelled: [yaml.safe_dump] then [yaml.safe_load] is
    the identity on the mapping). *)
Inductive content :=
  | Text (lines : list string)
  | Yaml (doc : gmap string Q).

Record file := File { body : content; mtime : Z }.

(** Effects on collaborators that are visible from outside. *)
Inductive event :=
  | Run (cmd : string)       (* do.run: one invocation of the external tool *)
  | Info (msg : string).     (* logger.info *)

Record world := World {
  files : gmap path file;
  clock : Z;
  events : list event
}.

Definition M (A : Type) : Type := world → outcome A * world.

Definition ret {A} (a : A) : M A := λ w, (Ok a, w).
Definition raise {A} (e : exn) : M A := λ w, (Raise e, w).
Definition bind {A B} (m : M A) (k : A → M B) : M B :=
  λ w, match m w with
       | (Ok a, w') => k a w'
       | (Raise e, w') => (Raise e, w')
       end.
Definition lift {A} (o : outcome A) : M A := λ w, (o, w).

Global Instance M_ret : MRet M := @ret.
Global Instance M_bind : MBind M := λ A B k m, bind m k.

(** [for x in xs: body], threading the loop-carried variables [acc]. *)
Fixpoint for_each {A S} (xs : list A) (step : A → S → M S) (acc : S) : M S :=
  match xs with
  | [] => ret acc
  | x :: xs' => acc' ← step x acc; for_each xs' step acc'
  end.

(** *** The file system *)

Definition set_files (fs : gmap path file) (w : world) : world :=
  World fs (clock w) (events w).

(** [open(p, "w")] followed by writing [c]: the file gets the current time. *)
Definition write_file (p : path) (c : content) : M unit := λ w,
  (Ok tt, World (<[p := File c (clock w)]> (files w)) (clock w + 1) (events w)).

(** Reading the lines of a text file. *)
Definition read_lines (p : option path) : M (list string) := λ w,
  match p with
  | None => (Raise TypeError, w)
  | Some p =>
      match files w !! p with
      | None => (Raise IOError, w)
      | Some (File (Text ls) _) => (Ok ls, w)
      | Some (File (Yaml _) _) => (Raise Unmodelled, w)
      end
  end.

(** [shutil.move(src, dst)]: a rename, which keeps the modification time. *)
Definition shutil_move (src dst : path) : M unit := λ w,
  match files w !! src with
  | None => (Raise IOError, w)
  | Some f => (Ok tt, set_files (<[dst := f]> (delete src (files w))) w)
  end.

Definition log_info (msg : string) : M unit := λ w,
  (Ok tt, World (files w) (clock w) (events w ++ [Info msg])).

(** Modelled from the spec: [utils.safe_makedir] is not under src/ (spec §1:
    generic safe-directory creation).  Directories are not modelled: the name
    is returned. *)
Definition safe_makedir (d : string) : string := d.

(** Modelled from the spec: [utils.file_exists] is not under src/; a file
    exists when the path is present in the file system. *)
Definition file_exists (p : path) : M bool := λ w,
  (Ok (bool_decide (is_Some (files w !! p))), w).

(** Modelled from the spec: [utils.file_uptodate] is not under src/.  Spec §3:
    fresh means that the artifact exists and artifact-mtime ≥ the dependency's
    mtime.  A dependency that is absent (no name, or no such file) has no
    mtime to compare with: the artifact is then not fresh. *)
Definition uptodate (fs : gmap path file) (fname : path) (cmp_fname : option path) : bool :=
  match fs !! fname, cmp_fname ≫= (fs !!.) with
  | Some f, Some g => (mtime g <=? mtime f)%Z
  | _, _ => false
  end.
Definition file_uptodate (fname : path) (cmp_fname : option path) : M bool :=
  λ w, (Ok (uptodate (files w) fname cmp_fname), w).

(** Modelled from the spec: [file_transaction] (bcbio.distributed.transaction)
    is not under src/.  Spec §4.2: outputs are written to a temporary location
    and renamed into the final path only after the body ends successfully; on
    a failure nothing is renamed and the temporary location is discarded.
    The temporary location is a directory of its own below the final one,
    empty when the body starts and removed when it ends. *)
Definition tx_dir (d : string) : string := dir_join d "tx".
Definition tx_path (final : path) : path := Path (tx_dir (dirname final)) (basename final).

Definition rmtree (d : string) (w : world) : world :=
  set_files (filter (λ kv, dirname kv.1 ≠ d) (files w)) w.

Definition file_transaction {A} (final : path) (body : path → M A) : M A := λ w,
  let tx := tx_path final in
  let w0 := rmtree (dirname tx) w in
  match body tx w0 with
  | (Raise e, w1) => (Raise e, rmtree (dirname tx) w1)
  | (Ok a, w1) =>
      let w2 := match files w1 !! tx with
                | Some f => set_files (<[final := f]> (delete tx (files w1))) w1
                | None => w1
                end in
      (Ok a, rmtree (dirname tx) w2)
  end.

(** *** Pure code that may raise *)

Global Instance outcome_ret : MRet outcome := @Ok.
Global Instance outcome_bind : MBind outcome := λ A B k o,
  match o with Ok a => k a | Raise e => Raise e end.

(** [None] of a conversion is the exception [e]. *)
Definition or_raise {A} (e : exn) (o : option A) : outcome A :=
  match o with Some a => Ok a | None => Raise e end.

(** [min(xs)] and [max(xs)]: ValueError on the empty list. *)
Definition py_min (xs : list Z) : outcome Z :=
  match xs with [] => Raise ValueError | x :: xs' => Ok (foldr Z.min x xs') end.
Definition py_max (xs : list Z) : outcome Z :=
  match xs with [] => Raise ValueError | x :: xs' => Ok (foldr Z.max x xs') end.

(** [sum(qs)] on floats. *)
Definition Qsum (qs : list Q) : Q := foldr Qplus 0%Q qs.

Definition TAB : string := String (ascii_of_nat 9) "".

(** The interpreter line: Python 2 orders an int before any str, Python 3
    refuses to compare them. *)
Inductive py_version := Py2 | Py3.

(** ** The sample context and the collaborators *)

(** A reference contig ([c.name], [c.size]). *)
Record contig := Contig { c_name : string; c_size : Z }.

(** The fields of [data] that the module reads through [dd.get_*] and
    [tz.get_in].  An optional file name is [None] when the entry is missing,
    [None] or the empty string, which Python's truth test does not tell
    apart; the same holds for [coverage_interval]. *)
Record data := Data {
  sample_name : string;                       (* dd.get_sample_name *)
  work_dir : string;                          (* dd.get_work_dir *)
  ref_file : string;                          (* dd.get_ref_file *)
  align_bam : option path;                    (* dd.get_align_bam *)
  work_bam : option path;                     (* dd.get_work_bam *)
  variant_regions_merged : option path;       (* dd.get_variant_regions_merged *)
  sample_callable : option path;              (* dd.get_sample_callable *)
  coverage : option path;                     (* dd.get_coverage *)
  coverage_depth_min : Z;                     (* dd.get_coverage_depth_min *)
  cores : Z;                                  (* dd.get_cores *)
  coverage_interval : option string;          (* data["config"]["algorithm"]["coverage_interval"] *)
  depth : gmap string (gmap string path)      (* data["depth"] *)
}.

(** [data["config"]["algorithm"]["coverage_interval"] = v] *)
Definition set_coverage_interval (v : string) (d : data) : data :=
  Data (sample_name d) (work_dir d) (ref_file d) (align_bam d) (work_bam d)
       (variant_regions_merged d) (sample_callable d) (coverage d)
       (coverage_depth_min d) (cores d) (Some v) (depth d).

(** [a or b] on optional values. *)
Definition or_else {A} (a b : option A) : option A :=
  match a with Some _ => a | None => b end.

(** What one run of the external depth tool does: its exit status and the
    files it leaves, each named by the suffix it appends to the prefix it was
    given (spec §6: [<prefix>.mosdepth.dist.txt], [<prefix>.regions.bed.gz],
    ...). *)
Record tool_result := ToolResult {
  exit_status : Z;
  outputs : list (string * list string)
}.

(** The collaborators the module calls without implementing them.  Each is the
    result the call gives on the arguments the code passes. *)
Record collaborators := {
  (* pybedtools.BedTool(f).total_coverage() *)
  total_coverage : option path → Z;
  (* the lines of pybedtools.BedTool(a).intersect(b) *)
  intersect : path → path → list string;
  (* ref.file_contigs(dd.get_ref_file(data), data["config"]) *)
  file_contigs : data → list contig;
  (* shared.get_noalt_contigs(data) *)
  get_noalt_contigs : data → list contig;
  (* readstats.number_of_mapped_reads(data, bam, keep_dups=False[, bed_file, target_name]) *)
  number_of_mapped_reads : data → option path → option (option path * string) → Z;
  (* sum(x.aligned for x in bam.idxstats(bam_file, data)) *)
  idxstats_aligned : option path → Z;
  (* np.median of the query lengths of the first 1e5 reads of the BAM file *)
  median_query_length : option path → Q;
  (* regions.get_sv_bed(data) *)
  get_sv_bed : data → option path;
  (* utils.splitext_plus(f)[0] *)
  splitext_plus_base : path → path;
  (* utils.append_stem(f, stem) *)
  append_stem : path → string → path;
  (* the mosdepth binary: the command line and the files it can read *)
  mosdepth : string → gmap path file → tool_result
}.

Definition GENOME_COV_THRESH : Q := 0.40.
Definition OFFTARGET_THRESH : Q := 0.01.
Definition DEPTH_THRESHOLDS : list Z :=
  [1; 5; 10; 20; 50; 100; 250; 500; 1000; 5000; 10000; 50000].

(** Python's [a / b] on floats. *)
Definition fdiv (a b : Q) : outcome Q :=
  if Qeq_bool b 0 then Raise ZeroDivisionError else Ok (a / b)%Q.

(** [a > b] on floats. *)
Definition Qgtb (a b : Q) : bool := negb (Qle_bool a b).

(** [sum([c.size for c in cs])] *)
Definition sum_sizes (cs : list contig) : Z := foldr Z.add 0 (c_size <$> cs).

(** *** Artifact bundle and command line of the depth tool *)

(** [collections.namedtuple("MosdepthCov", ...)] *)
Module Cov.
Record MosdepthCov := {
  dist : path;
  per_base : option path;
  regions : option path;
  quantize : option path;
  thresholds : option path
}.
End Cov.
Abbreviation MosdepthCov := Cov.MosdepthCov.

(** [sep.join(xs)] *)
Fixpoint join (sep : string) (xs : list string) : string :=
  match xs with
  | [] => ""
  | [x] => x
  | x :: xs' => x +:+ sep +:+ join sep xs'
  end.

(** [enumerate(xs)], counting from [i]. *)
Fixpoint enumerate_from {A} (i : Z) (xs : list A) : list (Z * A) :=
  match xs with
  | [] => []
  | x :: xs' => (i, x) :: enumerate_from (i + 1) xs'
  end.

(** The string of an optional file name in a format ([None] prints as such). *)
Definition opt_path_str (p : option path) : string :=
  match p with Some p => path_str p | None => "None" end.

(** The read-exclusion flag on the command line. *)
Definition EXCLUDE_FLAG : Z := 1804.

(** [cmd.format( **locals())] in [run_mosdepth]. *)
Definition mosdepth_cmd (quant_export : string) (num_cores : Z)
    (mapq_arg perbase_arg bed_arg quant_arg : string)
    (tx_prefix : path) (bam_file : option path) (thresholds : string) : string :=
  quant_export +:+ "mosdepth -t " +:+ PyStr.of_int num_cores +:+
  " -F " +:+ PyStr.of_int EXCLUDE_FLAG +:+ " " +:+
  mapq_arg +:+ " " +:+ perbase_arg +:+ " " +:+ bed_arg +:+ " " +:+ quant_arg +:+ " " +:+
  path_str tx_prefix +:+ " " +:+ opt_path_str bam_file +:+ " " +:+ thresholds.

(** The local variables of the transaction body of [run_mosdepth] that make
    the command line, and the command line itself. *)
Definition mosdepth_cmdline (d : data) (bam_file bed_file : option path)
    (per_base : bool) (quantize : option (string * list string))
    (thresholds : option (list Z)) (tx_prefix : path) : string :=
  let num_cores := cores d in
  let bed_arg := match bed_file with Some b => "--by " +:+ path_str b | None => "" end in
  let perbase_arg := if per_base then "" else "--no-per-base" in
  let mapq_arg := if per_base || bool_decide (is_Some quantize) then "-Q 1" else "" in
  let '(quant_arg, quant_export) :=
    match quantize with
    | Some (q0, q1) =>
        ("--quantize " +:+ q0,
         join " && " ((λ ix, "export MOSDEPTH_Q" +:+ PyStr.of_int ix.1 +:+ "=" +:+ ix.2)
                        <$> enumerate_from 0 q1) +:+ " && ")
    | None => ("", "")
    end in
  let thresholds_arg := match thresholds with
                        | Some (t :: ts) => "-T " +:+ join "," (PyStr.of_int <$> (t :: ts))
                        | _ => ""
                        end in
  mosdepth_cmd quant_export num_cores mapq_arg perbase_arg bed_arg
               quant_arg tx_prefix bam_file thresholds_arg.

Section Coverage.

Context (X : collaborators).

(** ** Interval Classifier *)

Definition _count_offtarget (d : data) (bam_file bed_file : option path)
    (target_name : string) : outcome Q :=
  let mapped_unique := number_of_mapped_reads X d bam_file None in
  let ontarget := number_of_mapped_reads X d bam_file (Some (bed_file, target_name)) in
  if bool_decide (mapped_unique ≠ 0) then
    fdiv (inject_Z (mapped_unique - ontarget)) (inject_Z mapped_unique)
  else Ok 0%Q.

(** The diagnostic line of [assign_interval]. *)
Definition interval_message (name cov_interval : string) (genome_cov_pct offtarget_pct : Q) : string :=
  name +:+ ": Assigned coverage as '" +:+ cov_interval +:+ "' with " +:+
  PyStr.fmt1 (genome_cov_pct * 100) +:+ "% genome coverage and " +:+
  PyStr.fmt1 (offtarget_pct * 100) +:+ "% offtarget coverage".

Definition assign_interval (d : data) : M data :=
  if negb (bool_decide (is_Some (coverage_interval d))) then
    let vrs := variant_regions_merged d in
    let callable_file := sample_callable d in
    let callable_size :=
      if bool_decide (is_Some vrs) then total_coverage X vrs
      else total_coverage X callable_file in
    let total_size := sum_sizes (file_contigs X d) in
    genome_cov_pct ← lift (fdiv (inject_Z callable_size) (inject_Z total_size));
    '(cov_interval, offtarget_pct) ←
      (if Qgtb genome_cov_pct GENOME_COV_THRESH then mret ("genome", 0%Q)
       else if negb (bool_decide (is_Some vrs)) then mret ("regional", 0%Q)
       else
         offtarget_pct ← lift (_count_offtarget d (or_else (align_bam d) (work_bam d))
                                 (or_else vrs callable_file) "variant_regions");
         if Qgtb offtarget_pct OFFTARGET_THRESH then mret ("regional", offtarget_pct)
         else mret ("amplicon", offtarget_pct));
    log_info (interval_message (sample_name d) cov_interval genome_cov_pct offtarget_pct);;
    mret (set_coverage_interval cov_interval d)
  else mret d.

(** ** Depth Orchestrator *)

(** Modelled from the spec: [do.run] (bcbio.provenance.do) is not under src/.
    Spec §5 and §7: one blocking invocation of the external tool, and any
    non-zero exit is fatal.  The tool leaves its files under the prefix it was
    given (spec §6), whatever its exit status; [prefix] is that prefix, which
    the code passes inside [cmd]. *)
Definition do_run (cmd : string) (prefix : path) : M unit := λ w,
  let r := mosdepth X cmd (files w) in
  let fs := foldr (λ o fs, <[add_suffix prefix o.1 := File (Text o.2) (clock w)]> fs)
                  (files w) (outputs r) in
  let w' := World fs (clock w + 1) (events w ++ [Run cmd]) in
  if bool_decide (exit_status r = 0) then (Ok tt, w') else (Raise CalledProcessError, w').

(** [if out.attr: shutil.move(join(dirname(tx_out_file), basename(out.attr)), out.attr)] *)
Definition move_from_tx (tx_out_file : path) (final : option path) : M unit :=
  match final with
  | Some f => shutil_move (Path (dirname tx_out_file) (basename f)) f
  | None => mret tt
  end.

(** The deterministic artifact paths of a (sample, target) pair. *)
Definition mosdepth_prefix (d : data) (target_name : string) : path :=
  let work_dir := safe_makedir (dir_join (dir_join (work_dir d) "coverage") (sample_name d)) in
  Path work_dir (sample_name d +:+ "-" +:+ target_name).

Definition mosdepth_out (d : data) (target_name : string) (bed_file : option path)
    (per_base : bool) (quantize : option (string * list string))
    (thresholds : option (list Z)) : MosdepthCov :=
  let prefix := mosdepth_prefix d target_name in
  {| Cov.dist := add_suffix prefix ".mosdepth.dist.txt";
     Cov.per_base := if per_base then Some (add_suffix prefix ".per-base.bed.gz") else None;
     Cov.regions := if bool_decide (is_Some bed_file)
                then Some (add_suffix prefix ".regions.bed.gz") else None;
     Cov.quantize := if bool_decide (is_Some quantize)
                 then Some (add_suffix prefix ".quantized.bed.gz") else None;
     Cov.thresholds := match thresholds with
                   | Some (_ :: _) => Some (add_suffix prefix ".thresholds.bed.gz")
                   | _ => None
                   end |}.

Definition run_mosdepth (d : data) (target_name : string) (bed_file : option path)
    (per_base : bool) (quantize : option (string * list string))
    (thresholds : option (list Z)) : M MosdepthCov :=
  let bam_file := or_else (align_bam d) (work_bam d) in
  let prefix := mosdepth_prefix d target_name in
  let out := mosdepth_out d target_name bed_file per_base quantize thresholds in
  fresh ← file_uptodate (Cov.dist out) bam_file;
  (if negb fresh then
     file_transaction (Cov.dist out) (λ tx_out_file,
       let tx_prefix := Path (dirname tx_out_file) (basename prefix) in
       let cmd := mosdepth_cmdline d bam_file bed_file per_base quantize thresholds tx_prefix in
       do_run cmd tx_prefix;;
       move_from_tx tx_out_file (Cov.per_base out);;
       move_from_tx tx_out_file (Cov.regions out);;
       move_from_tx tx_out_file (Cov.quantize out);;
       move_from_tx tx_out_file (Cov.thresholds out))
   else mret tt);;
  mret out.

(** [_create_genome_regions]: one line per non-alt contig. *)
Definition _create_genome_regions (d : data) : M path :=
  let work_dir := safe_makedir (dir_join (dir_join (work_dir d) "coverage") (sample_name d)) in
  let variant_regions := Path work_dir "target-genome.bed" in
  file_transaction variant_regions (λ tx_variant_regions,
    write_file tx_variant_regions
      (Text ((λ c, c_name c +:+ TAB +:+ PyStr.of_int 0 +:+ TAB +:+ PyStr.of_int (c_size c))
               <$> get_noalt_contigs X d)));;
  mret variant_regions.

(** ** Region Subsetter *)

Definition _subset_to_variant_regions (callable_file : option path)
    (variant_regions : path) (d : data) : M path :=
  match callable_file with
  | None => raise TypeError
  | Some callable_file =>
      let out_file := add_suffix (splitext_plus_base X callable_file) "-vrsubset.bed" in
      fresh ← file_uptodate out_file (Some callable_file);
      (if negb fresh then
         file_transaction out_file (λ tx_out_file,
           write_file tx_out_file (Text (intersect X callable_file variant_regions)))
       else mret tt);;
      mret out_file
  end.

(** One target of [to_calculate]: name, region file, quantize, thresholds. *)
Definition target : Type :=
  string * option path * option (string * list string) * option (list Z).

(** [depth_files]: target name to attribute name to path. *)
Definition depth_files : Type := gmap string (gmap string path).

(** [cur_depth] of one target: the attributes of [depth_info] that are set. *)
Definition cur_depth_of (depth_info : MosdepthCov) : gmap string path :=
  foldl (λ cur av, match av.2 with Some val => <[av.1 := val]> cur | None => cur end)
        ∅
        [("dist", Some (Cov.dist depth_info));
         ("regions", Cov.regions depth_info);
         ("thresholds", Cov.thresholds depth_info)].

(** The body of the loop of [calculate]; the loop carries [callable_file] and
    [depth_files]. *)
Definition calculate_step (d : data) (t : target)
    (acc : option path * depth_files) : M (option path * depth_files) :=
  let '(target_name, region_bed, quantize, thresholds) := t in
  let '(callable_file, depth_files) := acc in
  match region_bed with
  | Some _ =>
      depth_info ← run_mosdepth d target_name region_bed false quantize thresholds;
      let depth_files := <[target_name := cur_depth_of depth_info]> depth_files in
      mret (if bool_decide (target_name = "variant_regions")
            then Cov.quantize depth_info else callable_file,
            depth_files)
  | None => mret acc
  end.

Definition calculate (bam_file : option path) (d : data) : M (path * depth_files) :=
  let min := coverage_depth_min d in
  variant_regions ←
    match variant_regions_merged d with
    | Some v => mret v
    | None => _create_genome_regions d
    end;
  let callable_file :=
    Path (safe_makedir (dir_join (dir_join (work_dir d) "align") (sample_name d)))
         (sample_name d +:+ "-coverage.callable.bed") in
  fresh ← file_uptodate callable_file bam_file;
  '(callable_file, depth_files) ←
    (if negb fresh then
       let vr_quantize := ("0:1:" +:+ PyStr.of_int min +:+ ":",
                           ["NO_COVERAGE"; "LOW_COVERAGE"; "CALLABLE"]) in
       let to_calculate : list target :=
         [("variant_regions", Some variant_regions, Some vr_quantize, None);
          ("sv_regions", get_sv_bed X d, None, None);
          ("coverage", coverage d, None, Some DEPTH_THRESHOLDS)] in
       for_each to_calculate (calculate_step d) (Some callable_file, ∅)
     else mret (Some callable_file, ∅));
  final_callable ← _subset_to_variant_regions callable_file variant_regions d;
  mret (final_callable, depth_files).

(** ** Coverage Cache *)

Definition _get_cache_file (d : data) (target_name : string) : path :=
  let prefix :=
    Path (safe_makedir (dir_join (dir_join (work_dir d) "align") (sample_name d)))
         (sample_name d +:+ "-coverage") in
  add_suffix prefix ("-" +:+ target_name +:+ "-stats.yaml").

(** [open(cache_file)] and [yaml.safe_load]. *)
Definition load_yaml (p : path) : M (gmap string Q) := λ w,
  match files w !! p with
  | None => (Raise IOError, w)
  | Some (File (Yaml doc) _) => (Ok doc, w)
  | Some (File (Text _) _) => (Raise Unmodelled, w)
  end.

Definition _read_cache (cache_file : path) (reuse_cmp_files : list (option path))
    : M (gmap string Q) :=
  let reuse_cmp_file := omap id reuse_cmp_files in
  λ w,
    if forallb (λ fn, uptodate (files w) cache_file (Some fn)) reuse_cmp_file
    then load_yaml cache_file w
    else (Ok ∅, w).

Definition _write_cache (cache : gmap string Q) (cache_file : path) : M unit :=
  write_file cache_file (Yaml cache).

Definition regions_coverage (bed_file : option path) (target_name : string) (d : data)
    : M (option path) :=
  let ready_bed := depth d !! target_name ≫= (.!! "regions") in
  match ready_bed with
  | Some _ => mret ready_bed
  | None => out ← run_mosdepth d target_name bed_file false None None; mret (Cov.regions out)
  end.

(** One non-comment line of the region-depth file: its length and its depth
    weighted by the length. *)
Definition depth_line (l : string) : outcome (Q * Z) :=
  let line_tokens := PyStr.split l in
  match (PyStr.to_int <$> take 2 (drop 1 line_tokens)) with
  | [Some start; Some end_] =>
      let size := end_ - start in
      depth ← or_raise ValueError (last line_tokens ≫= PyStr.to_float);
      Ok ((depth * inject_Z size)%Q, size)
  | _ => Raise ValueError
  end.

(** The loop of [_average_bed_coverage], carrying [avg_covs] and [total_len]. *)
Fixpoint depth_loop (ls : list string) (avg_covs : list Q) (total_len : Z)
    : outcome (list Q * Z) :=
  match ls with
  | [] => Ok (avg_covs, total_len)
  | l :: ls' =>
      if PyStr.startswith "#" l then depth_loop ls' avg_covs total_len
      else
        r ← depth_line l;
        depth_loop ls' (avg_covs ++ [r.1]) (total_len + r.2)
  end.

Definition average_of_lines (ls : list string) : outcome Q :=
  r ← depth_loop ls [] 0;
  let '(avg_covs, total_len) := r in
  if (0 <? total_len)%Z then fdiv (Qsum avg_covs) (inject_Z total_len) else Ok 0%Q.

Definition _average_bed_coverage (bed_file : option path) (target_name : string)
    (d : data) : M Q :=
  depth_file ← regions_coverage bed_file target_name d;
  ls ← read_lines depth_file;
  lift (average_of_lines ls).

Definition _average_genome_coverage (d : data) (bam_file : option path) : M Q :=
  let total := sum_sizes (file_contigs X d) in
  let read_counts := idxstats_aligned X bam_file in
  let read_size := median_query_length X bam_file in
  lift (fdiv (inject_Z read_counts * read_size) (inject_Z total)).

Definition get_average_coverage (target_name : string) (bed_file : option path)
    (d : data) (bam_file : option path) : M Z :=
  let bam_file :=
    match bam_file with
    | Some _ => bam_file
    | None => or_else (align_bam d) (work_bam d)
    end in
  let cache_file := _get_cache_file d target_name in
  cache ← _read_cache cache_file [bam_file; bed_file];
  match cache !! "avg_coverage" with
  | Some v => mret (PyStr.trunc v)
  | None =>
      avg_cov ← (if bool_decide (is_Some bed_file)
                 then _average_bed_coverage bed_file target_name d
                 else _average_genome_coverage d bam_file);
      let cache := <["avg_coverage" := inject_Z (PyStr.trunc avg_cov)]> cache in
      _write_cache cache cache_file;;
      mret (PyStr.trunc avg_cov)
  end.

(** ** Percentile Aggregator *)

Context (py : py_version).

(** A row handed to [csv.writer.writerow]. *)
Definition row : Type := list string.

(** The value of the variable [count] after a line: an int after a
    ["total"] line, the token itself after any other line. *)
Inductive count_val := CInt (n : Z) | CStr (s : string).

(** The variables the loop of [_calculate_percentiles] carries: the rows
    written so far and the last binding of [(count, pct)], if any. *)
Definition pct_state : Type := list row * option (count_val * string).

Definition percentile_step (cutoffs : list Z) (sample : string) (line : string)
    (st : pct_state) : outcome pct_state :=
  match PyStr.split line with
  | [contig; count; pct] =>
      if bool_decide (contig = "total") then
        count ← or_raise ValueError (PyStr.to_int count);
        p ← or_raise ValueError (PyStr.to_float pct);
        let pct := PyStr.fmt1 (p * 100) in
        lo ← py_min cutoffs;
        in_range ← (if (lo <=? count)%Z
                    then hi ← py_max cutoffs; Ok (count <=? hi)%Z
                    else Ok false);
        Ok (if in_range : bool
            then (st.1 ++ [["percentage" +:+ PyStr.of_int count; pct; sample]])%list
            else st.1,
            Some (CInt count, pct))
      else Ok (st.1, Some (CStr count, pct))
  | _ => Raise ValueError
  end.

Fixpoint percentile_loop (cutoffs : list Z) (sample : string) (ls : list string)
    (st : pct_state) : outcome pct_state :=
  match ls with
  | [] => Ok st
  | l :: ls' => st' ← percentile_step cutoffs sample l st; percentile_loop cutoffs sample ls' st'
  end.

(** [min(cutoffs) < count] for the dynamic value of [count]. *)
Definition lt_count (lo : Z) (c : count_val) : outcome bool :=
  match c with
  | CInt n => Ok (lo <? n)%Z
  | CStr _ => match py with Py2 => Ok true | Py3 => Raise TypeError end
  end.

(** The rows of the summary table, header first. *)
Definition percentile_rows (cutoffs : list Z) (sample : string) (ls : list string)
    : outcome (list row) :=
  st ← percentile_loop cutoffs sample ls ([["cutoff_reads"; "bases_pct"; "sample"]], None);
  match st.2 with
  | None => Raise UnboundLocalError
  | Some (count, pct) =>
      lo ← py_min cutoffs;
      floor ← lt_count lo count;
      Ok (if floor : bool
          then (st.1 ++ [["percentage" +:+ PyStr.of_int lo; pct; sample]])%list
          else st.1)
  end.

(** Modelled from the spec: [utils.copy_plus] is not under src/.  Spec §4.4:
    the table is duplicated under a second name. *)
Definition copy_plus (src dst : path) : M unit := λ w,
  match files w !! src with
  | None => (Raise IOError, w)
  | Some f => write_file dst (body f) w
  end.

Definition _calculate_percentiles (dist_file : path) (cutoffs : list Z) (d : data)
    : M (list path) :=
  present ← file_exists dist_file;
  if negb present then mret [] else
  let sample := sample_name d in
  let out_total_file := append_stem X dist_file "_total_summary" in
  summarised ← file_exists out_total_file;
  (if negb summarised then
     file_transaction out_total_file (λ tx_file,
       ls ← read_lines (Some dist_file);
       rows ← lift (percentile_rows cutoffs sample ls);
       write_file tx_file (Text (join TAB <$> rows)))
   else mret tt);;
  let out_total_fixed := Path (dirname out_total_file) (sample +:+ "_bcbio_coverage_avg.txt") in
  copy_plus out_total_file out_total_fixed;;
  mret [out_total_fixed].

End Coverage.

(** * Notions used in the statements *)

(** The final paths of an artifact bundle. *)
Definition artifact_paths (out : MosdepthCov) : list path :=
  Cov.dist out ::
  omap id [Cov.per_base out; Cov.regions out; Cov.quantize out; Cov.thresholds out].

(** The command that [run_mosdepth] issues for its arguments, and the files
    the tool sees when it starts: the temporary location is empty. *)
Definition issued_cmd (d : data) (target_name : string) (bed_file : option path)
    (per_base : bool) (quantize : option (string * list string))
    (thresholds : option (list Z)) : string :=
  let out := mosdepth_out d target_name bed_file per_base quantize thresholds in
  mosdepth_cmdline d (or_else (align_bam d) (work_bam d)) bed_file per_base quantize
    thresholds (Path (tx_dir (dirname (Cov.dist out))) (basename (mosdepth_prefix d target_name))).

Definition files_at_start (d : data) (target_name : string) (w : world) : gmap path file :=
  files (rmtree (tx_dir (dirname (mosdepth_prefix d target_name))) w).

(** A computation leaves the files at the paths in [P] as they are,
    whatever its outcome. *)
Definition preserves {A} (P : path → Prop) (m : M A) : Prop :=
  ∀ w o w', m w = (o, w') → ∀ p, P p → files w' !! p = files w !! p.

(** The tool invocations recorded in a world, oldest first. *)
Definition tool_runs (w : world) : list string :=
  omap (λ e, match e with Run cmd => Some cmd | Info _ => None end) (events w).

(** The SAM flag bits, and the filter that the docstring of [calculate]
    gives: [BAM_FUNMAP | BAM_FSECONDARY | BAM_FQCFAIL | BAM_FDUP]. *)
Definition BAM_FUNMAP : Z := 0x4.
Definition BAM_FMUNMAP : Z := 0x8.
Definition BAM_FSECONDARY : Z := 0x100.
Definition BAM_FQCFAIL : Z := 0x200.
Definition BAM_FDUP : Z := 0x400.
Definition documented_filter : Z :=
  Z.lor BAM_FUNMAP (Z.lor BAM_FSECONDARY (Z.lor BAM_FQCFAIL BAM_FDUP)).

(** The back-compatible callable file that [calculate] tests, and the world
    in which it tests it: after the whole-genome region file was written when
    the sample has no variant regions. *)
Definition callable_path (d : data) : path :=
  Path (safe_makedir (dir_join (dir_join (work_dir d) "align") (sample_name d)))
       (sample_name d +:+ "-coverage.callable.bed").

Definition world_at_check (X : collaborators) (d : data) (w : world) : world :=
  match variant_regions_merged d with
  | Some _ => w
  | None => (_create_genome_regions X d w).2
  end.

(** *** The region-depth file as the spec reads it

    A line is [contig start end ... depth]; lines that start with [#] are
    comments. *)
Record region := Region { r_start : Z; r_end : Z; r_depth : Q }.

Definition region_of_line (l : string) : option region :=
  let tokens := PyStr.split l in
  start ← tokens !! 1%nat ≫= PyStr.to_int;
  end_ ← tokens !! 2%nat ≫= PyStr.to_int;
  depth ← last tokens ≫= PyStr.to_float;
  Some (Region start end_ depth).

Fixpoint regions_of_lines (ls : list string) : option (list region) :=
  match ls with
  | [] => Some []
  | l :: ls' =>
      if PyStr.startswith "#" l then regions_of_lines ls'
      else r ← region_of_line l; rs ← regions_of_lines ls'; Some (r :: rs)
  end.

Definition r_length (r : region) : Z := r_end r - r_start r.

(** [sum(end_i - start_i)] and [sum(depth_i * (end_i - start_i))] *)
Definition total_length (rs : list region) : Z := foldr Z.add 0 (r_length <$> rs).
Definition weighted_depth (rs : list region) : Q :=
  Qsum ((λ r, r_depth r * inject_Z (r_length r))%Q <$> rs).

(** *** The distribution file as the spec reads it

    A line is [contig count pct]; only the lines of the contig ["total"]
    matter, the others are [None] here. *)
Record total_row := TotalRow { t_count : Z; t_pct : Q }.

Definition dist_line (l : string) : option (option total_row) :=
  match PyStr.split l with
  | [contig; count; pct] =>
      if bool_decide (contig = "total")
      then c ← PyStr.to_int count; p ← PyStr.to_float pct; Some (Some (TotalRow c p))
      else Some None
  | _ => None
  end.

Fixpoint dist_lines (ls : list string) : option (list (option total_row)) :=
  match ls with
  | [] => Some []
  | l :: ls' => r ← dist_line l; rs ← dist_lines ls'; Some (r :: rs)
  end.

(** The binding of [(count, pct)] that a line leaves. *)
Definition binding_of (l : string) (r : option total_row) : count_val * string :=
  match r with
  | Some t => (CInt (t_count t), PyStr.fmt1 (t_pct t * 100))
  | None => match PyStr.split l with
            | [_; count; pct] => (CStr count, pct)
            | _ => (CStr "", "")
            end
  end.

Definition header : list string := ["cutoff_reads"; "bases_pct"; "sample"].

(** [("percentage<count>", pct*100 to one decimal, sample)] *)
Definition pct_row (count : Z) (pct : Q) (sample : string) : list string :=
  ["percentage" +:+ PyStr.of_int count; PyStr.fmt1 (pct * 100); sample].

(** One row for each ["total"] row whose count lies within [[lo, hi]]. *)
Definition in_range_rows (lo hi : Z) (sample : string) (rs : list (option total_row))
    : list (list string) :=
  (λ t, pct_row (t_count t) (t_pct t) sample) <$>
  filter (λ t, lo ≤ t_count t ≤ hi) (omap id rs).

(** The ["total"] row with the smallest count (the first one, among equals). *)
Definition smallest_total (rs : list (option total_row)) : option total_row :=
  foldr (λ t acc, match acc with
                  | Some m => if (t_count t <=? t_count m)%Z then Some t else Some m
                  | None => Some t
                  end) None (omap id rs).

(** The extra row for the floor cutoff, taken from the row [t]. *)
Definition floor_rows (lo : Z) (sample : string) (t : option total_row) : list (list string) :=
  match t with
  | Some t => if (lo <? t_count t)%Z then [pct_row lo (t_pct t) sample] else []
  | None => []
  end.

(** The table as the specification words it: the floor row comes from the
    smallest-count ["total"] row. *)
Definition claimed_rows (lo hi : Z) (sample : string) (rs : list (option total_row))
    : list (list string) :=
  header :: in_range_rows lo hi sample rs ++ floor_rows lo sample (smallest_total rs).

(** * Sample inputs

    A sample [S] in the work directory [/w], with collaborators that answer
    with fixed values: used to run the definitions on concrete inputs. *)

Module Sample.

Definition bam : path := Path "/w" "S.bam".
Definition targets : path := Path "/w" "vr.bed".

(** [os.path.splitext] on a base name: the extension starts at the last
    dot, unless the name has no dot after its first character. *)
Definition splitext (b : string) : string * string :=
  match PyStr.break PyStr.is_dot (String.rev b) with
  | (_, None) | (_, Some EmptyString) => (b, "")
  | (txe, Some esab) => (String.rev esab, "." +:+ String.rev txe)
  end.

(** [utils.splitext_plus]: a compression suffix counts with the extension
    before it. *)
Definition splitext_plus (b : string) : string * string :=
  let '(base, ext) := splitext b in
  if bool_decide (ext ∈ [".gz"; ".bz2"; ".zip"])
  then let '(base, ext2) := splitext base in (base, ext2 +:+ ext)
  else (base, ext).

(** The depth tool succeeds and leaves the four files. *)
Definition tool_ok : tool_result :=
  ToolResult 0
    [(".mosdepth.dist.txt", ["total 50000 0.01"; "total 10 0.95"]);
     (".regions.bed.gz", ["chr1 0 100 10.00"; "chr1 100 200 30.00"]);
     (".quantized.bed.gz", ["chr1 0 200 CALLABLE"]);
     (".thresholds.bed.gz", ["#chrom start end region 1X"])].

(** The depth tool fails after it has written a part of its output. *)
Definition tool_failed : tool_result :=
  ToolResult 1 [(".mosdepth.dist.txt", ["total 50000 0.01"])].

Definition X (tool : tool_result) : collaborators := {|
  total_coverage := λ _, 200;
  intersect := λ _ _, ["chr1 0 200 CALLABLE"];
  file_contigs := λ _, [Contig "chr1" 1000; Contig "chr2" 1000];
  get_noalt_contigs := λ _, [Contig "chr1" 1000; Contig "chr2" 1000];
  number_of_mapped_reads := λ _ _ bed, match bed with None => 1000 | Some _ => 995 end;
  idxstats_aligned := λ _, 1000;
  median_query_length := λ _, 100%Q;
  get_sv_bed := λ _, None;
  splitext_plus_base := λ p, Path (dirname p) (splitext_plus (basename p)).1;
  append_stem := λ p stem,
    let '(base, ext) := splitext_plus (basename p) in
    Path (dirname p) (base +:+ stem +:+ ext);
  mosdepth := λ _ _, tool
|}.

Definition d : data := {|
  sample_name := "S"; work_dir := "/w"; ref_file := "/w/ref.fa";
  align_bam := Some bam; work_bam := None;
  variant_regions_merged := Some targets; sample_callable := None;
  coverage := Some targets; coverage_depth_min := 4; cores := 8;
  coverage_interval := None; depth := ∅
|}.

(** The alignment and target files, written at times 0 and 1; now is 5. *)
Definition w : world :=
  World (<[bam := File (Text []) 0]> (<[targets := File (Text ["chr1 0 200"]) 1]> ∅)) 5 [].

(** The same sample once its interval is known. *)
Definition d_genome : data := set_coverage_interval "genome" d.

(** The arguments of the depth run of the target [coverage]. *)
Definition run (tool : tool_result) : M MosdepthCov :=
  run_mosdepth (X tool) d "coverage" (Some targets) false None (Some DEPTH_THRESHOLDS).
Definition out : MosdepthCov :=
  mosdepth_out d "coverage" (Some targets) false None (Some DEPTH_THRESHOLDS).

(** The world after a first, successful depth run. *)
Definition w_run : world := (run tool_ok w).2.

(** The world after a first request for the average coverage. *)
Definition w_cached : world :=
  (get_average_coverage (X tool_ok) "coverage" (Some targets) d None w).2.

(** A world with a callable file of the old layout, written at time 3. *)
Definition w_callable : world :=
  World (<[callable_path d := File (Text ["chr1 0 200 CALLABLE"]) 3]> (files w)) 5 [].

(** Two distribution files with the same rows: counts descending, as the
    depth tool writes them, and counts ascending. *)
Definition dist_descending : list string := ["total 50000 0.01"; "total 10 0.95"].
Definition dist_ascending : list string := ["total 10 0.95"; "total 50000 0.01"].

End Sample.

(** * Detailed statistics of a coverage target

    [coverage_region_detailed_stats] copies the artifacts of a target into
    the output directory and summarises the distribution.  A missing key of
    [data["depth"][target_name]] raises KeyError, which is kept apart from
    the exceptions of [exn]: the result is either what was raised or the list
    of files.  [os.path.abspath] depends on the working directory of the
    process and is a parameter. *)

Inductive raised :=
  | PyExn (e : exn)
  | KeyError (key : string).

Definition stats_result : Type := raised + list path.

(** The outcome of a computation as a result of this kind. *)
Definition to_result {A} (r : outcome A * world) : (raised + A) * world :=
  match r with
  | (Ok a, w) => (inr a, w)
  | (Raise e, w) => (inl (PyExn e), w)
  end.

Section DetailedStats.

Context (X : collaborators) (py : py_version) (abspath : path → path).

(** The copies and the summary, once the three artifacts are known. *)
Definition detailed_stats_files (cov_file dist_file thresholds_file : path) (d : data)
    (out_dir : string) : M (list path) :=
  let out_cov_file := Path out_dir (basename cov_file) in
  let out_dist_file := Path out_dir (basename dist_file) in
  let out_thresholds_file := Path out_dir (basename thresholds_file) in
  fresh ← file_uptodate out_cov_file (Some cov_file);
  (if negb fresh then
     copy_plus cov_file out_cov_file;;
     copy_plus dist_file out_dist_file;;
     copy_plus dist_file out_thresholds_file
   else mret tt);;
  out_files ← _calculate_percentiles X py out_dist_file DEPTH_THRESHOLDS d;
  mret ((abspath <$> out_files) ++ [out_cov_file; out_dist_file; out_thresholds_file]).

Definition coverage_region_detailed_stats (target_name : string) (bed_file : option path)
    (d : data) (out_dir : string) : world → stats_result * world := λ w,
  match bed_file with
  | None => (inr [], w)
  | Some bed =>
      if negb (bool_decide (is_Some (files w !! bed))) then (inr [], w) else
      match depth d !! target_name with
      | None => (inl (PyExn TypeError), w)
      | Some ready_depth =>
          match ready_depth !! "regions" with
          | None => (inl (KeyError "regions"), w)
          | Some cov_file =>
              match ready_depth !! "dist" with
              | None => (inl (KeyError "dist"), w)
              | Some dist_file =>
                  match ready_depth !! "thresholds" with
                  | None => (inl (KeyError "thresholds"), w)
                  | Some thresholds_file =>
                      to_result
                        (detailed_stats_files cov_file dist_file thresholds_file d out_dir w)
                  end
              end
          end
      end
  end.

End DetailedStats.

(** * Further notions and sample inputs *)

(** A computation runs the external tool at most [n] times and adds nothing
    else to the log, whatever its outcome. *)
Definition tool_only {A} (n : nat) (m : M A) : Prop :=
  ∀ w, ∃ cmds, events (m w).2 = events w ++ (Run <$> cmds) ∧ (length cmds ≤ n)%nat.

(** The tool left a file under [prefix] with the suffix [sfx] at time [t]. *)
Definition left_at (prefix : path) (t : Z) (sfx : string) (w : world) : Prop :=
  ∃ ls, files w !! add_suffix prefix sfx = Some (File (Text ls) t).

(** Inputs for the edge cases. *)
Module Edge.
Import Sample.

(** The collaborators of the sample, with another reference. *)
Definition with_contigs (cs : list contig) (X0 : collaborators) : collaborators := {|
  total_coverage := total_coverage X0;
  intersect := intersect X0;
  file_contigs := λ _, cs;
  get_noalt_contigs := λ _, cs;
  number_of_mapped_reads := number_of_mapped_reads X0;
  idxstats_aligned := idxstats_aligned X0;
  median_query_length := median_query_length X0;
  get_sv_bed := get_sv_bed X0;
  splitext_plus_base := splitext_plus_base X0;
  append_stem := append_stem X0;
  mosdepth := mosdepth X0
|}.

(** A reference without any contig. *)
Definition X_empty_ref : collaborators := with_contigs [] (X tool_ok).

(** The depth tool exits with 0 but leaves no quantized file. *)
Definition tool_no_quantized : tool_result :=
  ToolResult 0
    [(".mosdepth.dist.txt", ["total 50000 0.01"; "total 10 0.95"]);
     (".regions.bed.gz", ["chr1 0 100 10.00"; "chr1 100 200 30.00"])].

(** The sample without any alignment file. *)
Definition d_no_bam : data := {|
  sample_name := "S"; work_dir := "/w"; ref_file := "/w/ref.fa";
  align_bam := None; work_bam := None;
  variant_regions_merged := None; sample_callable := None;
  coverage := None; coverage_depth_min := 4; cores := 8;
  coverage_interval := None; depth := ∅
|}.

(** A world whose distribution file for [coverage] is empty. *)
Definition w_empty_dist : world :=
  World (<[Cov.dist out := File (Text []) 6]> (files w)) 7 [].

(** The world after the first summary of the sample, and the same world
    once the distribution file has been written again with other rows. *)
Definition w_summary : world :=
  (_calculate_percentiles (X tool_ok) Py3 (Cov.dist out) DEPTH_THRESHOLDS d w_run).2.
Definition w_old_summary : world :=
  World (<[Cov.dist out := File (Text ["total 5 0.50"]) (clock w_summary)]> (files w_summary))
        (clock w_summary + 1) [].

(** A distribution file that ends with the row of a contig. *)
Definition dist_contig_last : list string := ["total 10 0.95"; "chr1 10 0.95"].

(** The sample once the caller has stored a mapping of depth files:
    [data["depth"] = m]. *)
Definition with_depth (m : depth_files) (d0 : data) : data :=
  Data (sample_name d0) (work_dir d0) (ref_file d0) (align_bam d0) (work_bam d0)
       (variant_regions_merged d0) (sample_callable d0) (coverage d0)
       (coverage_depth_min d0) (cores d0) (coverage_interval d0) m.

(** The sample with the artifacts of its [coverage] target, as [calculate]
    reports them. *)
Definition d_depth : data := with_depth {["coverage" := cur_depth_of out]} d.

(** The world after the depth run, with a copy of the regions artifact
    already in the output directory, made later than the artifact. *)
Definition w_copied : world :=
  World (<[Path "/w/final" "S-coverage.regions.bed.gz" := File (Text []) (clock w_run)]>
           (files w_run))
        (clock w_run + 1) [].

End Edge.

(** * Properties *)

(** ** The string helpers on sample tokens *)

Example split_ex : PyStr.split "total  10 0.95 " = ["total"; "10"; "0.95"].
Proof. reflexivity. Qed.
Example to_float_ex : PyStr.to_float "0.95" = Some (95 # 100)%Q.
Proof. reflexivity. Qed.
Example fmt1_ex : PyStr.fmt1 (0.95 * 100)%Q = "95.0".
Proof. vm_compute. reflexivity. Qed.
Example fmt1_ex2 : PyStr.fmt1 (-(1 # 3))%Q = "-0.3".
Proof. vm_compute. reflexivity. Qed.
Example to_int_ex : PyStr.to_int "-42" = Some (-42) ∧ PyStr.to_int "4x" = None.
Proof. split; reflexivity. Qed.
Example to_float_ex2 : (PyStr.to_float "1.5e-1" = Some (15 # 100)%Q ∧ PyStr.to_float "." = None).
Proof. vm_compute. split; reflexivity. Qed.

(** ** Unfolding the monad *)

Lemma bind_ok {A B} (m : M A) (k : A → M B) w a w' :
  m w = (Ok a, w') → (m ≫= k) w = k a w'.
Proof. intros H. unfold mbind, M_bind, bind. by rewrite H. Qed.

Lemma bind_raise {A B} (m : M A) (k : A → M B) w e w' :
  m w = (Raise e, w') → (m ≫= k) w = (Raise e, w').
Proof. intros H. unfold mbind, M_bind, bind. by rewrite H. Qed.

Ltac unfold_M :=
  unfold mbind, M_bind, bind, mret, M_ret, ret, raise, lift, file_uptodate,
    file_exists, log_info in *.

(** ** Rational arithmetic used below *)

Lemma inject_Z_eq0 (z : Z) : Qeq_bool (inject_Z z) 0 = bool_decide (z = 0).
Proof.
  case_bool_decide as Hz.
  - subst. reflexivity.
  - apply not_true_is_false. intros H%Qeq_bool_iff.
    apply Hz. revert H. unfold Qeq, inject_Z; simpl. lia.
Qed.

Lemma fdiv_Z (a : Q) (z : Z) :
  z ≠ 0 → fdiv a (inject_Z z) = Ok (a / inject_Z z)%Q.
Proof.
  intros Hz. unfold fdiv. rewrite inject_Z_eq0. by rewrite bool_decide_eq_false_2.
Qed.

Lemma Qgtb_true (a b : Q) : Qgtb a b = true ↔ (b < a)%Q.
Proof.
  unfold Qgtb. rewrite negb_true_iff. split.
  - intros H. apply Qnot_le_lt. intros Hle%Qle_bool_iff. congruence.
  - intros H. apply not_true_is_false. intros Hle%Qle_bool_iff.
    exact (Qlt_not_le _ _ H Hle).
Qed.

Lemma Qgtb_false (a b : Q) : Qgtb a b = false ↔ (a <= b)%Q.
Proof.
  unfold Qgtb. rewrite negb_false_iff. apply Qle_bool_iff.
Qed.

(** ** Interval Classifier *)

Section Classifier.

Context (X : collaborators).

Lemma count_offtarget_value (d : data) (bam_file bed_file : option path) (tn : string) :
  _count_offtarget X d bam_file bed_file tn =
    let mu := number_of_mapped_reads X d bam_file None in
    let ot := number_of_mapped_reads X d bam_file (Some (bed_file, tn)) in
    Ok (if bool_decide (mu = 0)%Z then 0 else inject_Z (mu - ot) / inject_Z mu)%Q.
Proof.
  unfold _count_offtarget; cbv zeta.
  case_bool_decide as Hmu.
  - rewrite fdiv_Z by done. by rewrite bool_decide_eq_false_2.
  - by rewrite bool_decide_eq_true_2.
Qed.

(** C5.  For read counts with [0 ≤ ontarget ≤ mapped_unique],
    [_count_offtarget] returns a value (it never raises): the ratio
    [(mapped_unique - ontarget) / mapped_unique] when [mapped_unique > 0] and
    [0.0] when [mapped_unique = 0]; the value lies in [[0, 1]]. *)
Theorem count_offtarget_ratio (d : data) (bam_file bed_file : option path) (tn : string) :
  let mapped_unique := number_of_mapped_reads X d bam_file None in
  let ontarget := number_of_mapped_reads X d bam_file (Some (bed_file, tn)) in
  (0 ≤ ontarget ≤ mapped_unique)%Z →
  ∃ q, _count_offtarget X d bam_file bed_file tn = Ok q ∧
       ((0 < mapped_unique)%Z → (q == inject_Z (mapped_unique - ontarget) / inject_Z mapped_unique)%Q) ∧
       (mapped_unique = 0 → (q == 0)%Q) ∧
       (0 <= q ∧ q <= 1)%Q.
Proof.
  intros mu ot [Hot Hle]. rewrite count_offtarget_value. fold mu ot. cbv zeta.
  eexists; split; [reflexivity|].
  case_bool_decide as Hmu.
  - repeat split; try done. intros; lia.
  - assert (0 < mu)%Z as Hpos by lia.
    assert (0 < inject_Z mu)%Q as HposQ
      by (change (inject_Z 0 < inject_Z mu)%Q; by rewrite <- Zlt_Qlt).
    repeat split; try done.
    + apply Qle_shift_div_l; [done|]. rewrite Qmult_0_l.
      change (inject_Z 0 <= inject_Z (mu - ot))%Q. rewrite <- Zle_Qle. lia.
    + apply Qle_shift_div_r; [done|]. rewrite Qmult_1_l.
      rewrite <- Zle_Qle. lia.
Qed.

(** C9.  When [coverage_interval] is already set, [assign_interval] returns the
    context as it is and has no effect: nothing is counted, logged or
    written. *)
Theorem assign_interval_noop (d : data) (w : world) :
  is_Some (coverage_interval d) →
  assign_interval X d w = (Ok d, w).
Proof.
  intros Hset. unfold assign_interval.
  by rewrite bool_decide_eq_true_2.
Qed.


End Classifier.

(** ** The file system and the transaction *)

Lemma string_length_app (a b : string) :
  String.length (a +:+ b) = (String.length a + String.length b)%nat.
Proof. induction a as [|c a IH]; simpl; [done|]. by rewrite <- IH. Qed.

Lemma string_app_assoc (a b c : string) : (a +:+ b) +:+ c = a +:+ (b +:+ c).
Proof.
  induction a as [|x a IH]; [done|].
  change (String x ((a +:+ b) +:+ c) = String x (a +:+ (b +:+ c))). by rewrite IH.
Qed.

Lemma tx_dir_ne (d : string) : tx_dir d ≠ d.
Proof.
  unfold tx_dir, dir_join. intros H%(f_equal String.length).
  rewrite !string_length_app in H. simpl in H. lia.
Qed.

Lemma rmtree_lookup_ne (t : string) (w : world) (p : path) :
  dirname p ≠ t → files (rmtree t w) !! p = files w !! p.
Proof.
  intros Hne. unfold rmtree, set_files; simpl.
  rewrite map_lookup_filter. destruct (files w !! p); simpl; [|done].
  by rewrite option_guard_True.
Qed.

Lemma rmtree_lookup_eq (t : string) (w : world) (p : path) :
  dirname p = t → files (rmtree t w) !! p = None.
Proof.
  intros He. unfold rmtree, set_files; simpl.
  apply map_lookup_filter_None_2. destruct (files w !! p); [right|by left].
  intros x _ Hx. by apply Hx.
Qed.

(** The files a tool run leaves are all in the directory of its prefix. *)
Lemma tool_outputs_lookup_ne (prefix p : path) (t : Z) (outs : list (string * list string))
    (fs : gmap path file) :
  dirname p ≠ dirname prefix →
  foldr (λ o fs, <[add_suffix prefix o.1 := File (Text o.2) t]> fs) fs outs !! p = fs !! p.
Proof.
  intros Hne. induction outs as [|o outs IH]; simpl; [done|].
  rewrite lookup_insert_ne; [done|]. intros <-. by apply Hne.
Qed.

Lemma file_transaction_raise {A} (final : path) (body : path → M A) (w w1 : world) (e : exn) :
  body (tx_path final) (rmtree (tx_dir (dirname final)) w) = (Raise e, w1) →
  file_transaction final body w = (Raise e, rmtree (tx_dir (dirname final)) w1).
Proof. intros H. unfold file_transaction. cbn [tx_path dirname]. by rewrite H. Qed.

Lemma file_transaction_ok {A} (final : path) (body : path → M A) (w w1 : world) (a : A) :
  body (tx_path final) (rmtree (tx_dir (dirname final)) w) = (Ok a, w1) →
  file_transaction final body w =
    (Ok a, rmtree (tx_dir (dirname final))
             match files w1 !! tx_path final with
             | Some f => set_files (<[final := f]> (delete (tx_path final) (files w1))) w1
             | None => w1
             end).
Proof. intros H. unfold file_transaction. cbn [tx_path dirname]. by rewrite H. Qed.

Lemma file_transaction_ok_inv {A} (final : path) (body : path → M A) (w w' : world) (a : A) :
  file_transaction final body w = (Ok a, w') →
  ∃ w1, body (tx_path final) (rmtree (tx_dir (dirname final)) w) = (Ok a, w1) ∧
        w' = rmtree (tx_dir (dirname final))
               match files w1 !! tx_path final with
               | Some f => set_files (<[final := f]> (delete (tx_path final) (files w1))) w1
               | None => w1
               end.
Proof.
  unfold file_transaction. cbn [tx_path dirname].
  destruct (body _ _) as [[a'|e] w1]; [|done].
  intros [= <- <-]. by exists w1.
Qed.

Lemma artifact_paths_dirname (d : data) (tn : string) (bed : option path) (pb : bool)
    (qz : option (string * list string)) (th : option (list Z)) (p : path) :
  p ∈ artifact_paths (mosdepth_out d tn bed pb qz th) →
  dirname p = dirname (mosdepth_prefix d tn).
Proof.
  unfold artifact_paths, mosdepth_out; simpl.
  destruct pb, (bool_decide (is_Some bed)), (bool_decide (is_Some qz)), th as [[|??]|];
    simpl; rewrite ?elem_of_cons, elem_of_nil; intros H;
    repeat (destruct H as [->|H]; [done|]); done.
Qed.

Lemma bind_ok_inv {A B} (m : M A) (k : A → M B) (w w' : world) (b : B) :
  (m ≫= k) w = (Ok b, w') → ∃ a w1, m w = (Ok a, w1) ∧ k a w1 = (Ok b, w').
Proof.
  unfold mbind, M_bind, bind. destruct (m w) as [[a|e] w1]; [|done].
  intros H. by exists a, w1.
Qed.

Lemma add_suffix_inj (prefix : path) (s1 s2 : string) :
  add_suffix prefix s1 = add_suffix prefix s2 → s1 = s2.
Proof. unfold add_suffix. intros [= H]. by apply String.app_inj in H. Qed.

(** A file that the tool leaves is there after the run, with the time of the
    run. *)
Lemma tool_outputs_lookup (prefix : path) (t : Z) (outs : list (string * list string))
    (fs : gmap path file) (sfx : string) :
  sfx ∈ outs.*1 →
  ∃ ls, foldr (λ o fs, <[add_suffix prefix o.1 := File (Text o.2) t]> fs) fs outs
          !! add_suffix prefix sfx = Some (File (Text ls) t).
Proof.
  induction outs as [|[s0 ls0] outs IH]; simpl; [by intros ?%elem_of_nil|].
  intros Hin. destruct (decide (s0 = sfx)) as [->|Hne].
  - exists ls0. apply lookup_insert_eq.
  - apply elem_of_cons in Hin as [->|Hin]; [done|].
    destruct (IH Hin) as [ls Hls]. exists ls.
    rewrite lookup_insert_ne; [done|]. by intros ?%add_suffix_inj.
Qed.

(** The optional artifacts are next to the distribution artifact, under
    other names. *)
Lemma optional_artifact (d : data) (tn : string) (bed : option path) (pb : bool)
    (qz : option (string * list string)) (th : option (list Z)) (a : path) :
  let out := mosdepth_out d tn bed pb qz th in
  Some a ∈ [Cov.per_base out; Cov.regions out; Cov.quantize out; Cov.thresholds out] →
  dirname a = dirname (mosdepth_prefix d tn) ∧ basename a ≠ basename (Cov.dist out).
Proof.
  intros out. unfold out, mosdepth_out. cbn [Cov.per_base Cov.regions Cov.quantize
    Cov.thresholds Cov.dist add_suffix basename dirname].
  rewrite !elem_of_cons, elem_of_nil.
  intros [H|[H|[H|[H|[]]]]]; revert H.
  - destruct pb; [|done]. intros [= ->]. split; [done|]. by intros ?%String.app_inj.
  - destruct (bool_decide _); [|done]. intros [= ->]. split; [done|].
    by intros ?%String.app_inj.
  - destruct (bool_decide _); [|done]. intros [= ->]. split; [done|].
    by intros ?%String.app_inj.
  - destruct th as [[|??]|]; try done. intros [= ->]. split; [done|].
    by intros ?%String.app_inj.
Qed.

(** *** Frame rules *)

Lemma preserves_ret {A} (P : path → Prop) (a : A) : preserves P (mret a).
Proof. by intros w o w' [= <- <-]. Qed.

Lemma preserves_bind {A B} (P : path → Prop) (m : M A) (k : A → M B) :
  preserves P m → (∀ a, preserves P (k a)) → preserves P (m ≫= k).
Proof.
  intros Hm Hk w o w' Hrun p Hp.
  unfold mbind, M_bind, bind in Hrun.
  destruct (m w) as [[a|e] w1] eqn:Hmw.
  - rewrite (Hk a _ _ _ Hrun p Hp). exact (Hm _ _ _ Hmw p Hp).
  - injection Hrun as <- <-. exact (Hm _ _ _ Hmw p Hp).
Qed.

Lemma preserves_file_uptodate (P : path → Prop) (f : path) (c : option path) :
  preserves P (file_uptodate f c).
Proof. by intros w o w' [= <- <-]. Qed.

Lemma preserves_write_file (P : path → Prop) (f : path) (c : content) :
  (∀ p, P p → p ≠ f) → preserves P (write_file f c).
Proof.
  intros HP w o w' [= <- <-] p Hp. cbn [files].
  apply lookup_insert_ne. intros <-. by apply (HP f).
Qed.

Lemma preserves_shutil_move (P : path → Prop) (src dst : path) :
  (∀ p, P p → p ≠ src ∧ p ≠ dst) → preserves P (shutil_move src dst).
Proof.
  intros HP w o w' Hrun p Hp. destruct (HP p Hp) as [Hs Hd].
  unfold shutil_move in Hrun. destruct (files w !! src) as [f|].
  - injection Hrun as <- <-. cbn [set_files files].
    rewrite lookup_insert_ne by done. by rewrite lookup_delete_ne.
  - by injection Hrun as <- <-.
Qed.

Lemma preserves_file_transaction {A} (P : path → Prop) (final : path) (body : path → M A) :
  (∀ p, P p → dirname p ≠ tx_dir (dirname final) ∧ p ≠ final) →
  preserves P (body (tx_path final)) →
  preserves P (file_transaction final body).
Proof.
  intros HP Hbody w o w' Hrun p Hp. destruct (HP p Hp) as [Hd Hf].
  unfold file_transaction in Hrun. cbn [tx_path dirname] in Hrun.
  change (Path (tx_dir (dirname final)) (basename final)) with (tx_path final) in Hrun.
  destruct (body (tx_path final) (rmtree (tx_dir (dirname final)) w)) as [[a|e] w1] eqn:Hb;
    injection Hrun as <- <-; rewrite rmtree_lookup_ne by done.
  - destruct (files w1 !! tx_path final) as [f|]; cbn [set_files files].
    + rewrite lookup_insert_ne by done.
      rewrite lookup_delete_ne by (intros <-; by apply Hd).
      rewrite (Hbody _ _ _ Hb p Hp). by apply rmtree_lookup_ne.
    + rewrite (Hbody _ _ _ Hb p Hp). by apply rmtree_lookup_ne.
  - rewrite (Hbody _ _ _ Hb p Hp). by apply rmtree_lookup_ne.
Qed.

(** ** Depth Orchestrator *)

Section Orchestrator.

Context (X : collaborators).

Lemma do_run_failed (cmd : string) (prefix : path) (w : world) :
  exit_status (mosdepth X cmd (files w)) ≠ 0 →
  do_run X cmd prefix w =
    (Raise CalledProcessError,
     World (foldr (λ o fs, <[add_suffix prefix o.1 := File (Text o.2) (clock w)]> fs)
                  (files w) (outputs (mosdepth X cmd (files w))))
           (clock w + 1) (events w ++ [Run cmd])).
Proof. intros H. unfold do_run. by rewrite bool_decide_eq_false_2. Qed.

Lemma preserves_do_run (P : path → Prop) (cmd : string) (prefix : path) :
  (∀ p, P p → dirname p ≠ dirname prefix) → preserves P (do_run X cmd prefix).
Proof.
  intros HP w o w' Hrun p Hp. unfold do_run in Hrun.
  case_bool_decide; injection Hrun as <- <-; cbn [files];
    apply tool_outputs_lookup_ne; by apply HP.
Qed.

Lemma preserves_move_from_tx (P : path → Prop) (tx_out_file : path) (final : option path) :
  (∀ p, P p → dirname p ≠ dirname tx_out_file ∧ Some p ≠ final) →
  preserves P (move_from_tx tx_out_file final).
Proof.
  intros HP. destruct final as [f|]; [|apply preserves_ret].
  apply preserves_shutil_move. intros p Hp. destruct (HP p Hp) as [Hd Hf].
  split; [intros ->; by apply Hd|congruence].
Qed.

(** Frame of [run_mosdepth]: whatever its outcome, it changes no file outside
    its temporary directory other than the artifacts of its bundle. *)
Lemma run_mosdepth_frame (d : data) (tn : string) (bed : option path) (pb : bool)
    (qz : option (string * list string)) (th : option (list Z)) :
  let out := mosdepth_out d tn bed pb qz th in
  preserves (λ p, dirname p ≠ tx_dir (dirname (mosdepth_prefix d tn)) ∧
                  p ∉ artifact_paths out)
            (run_mosdepth X d tn bed pb qz th).
Proof.
  intros out. unfold run_mosdepth. fold out.
  assert (∀ a p, p ∉ artifact_paths out → a ∈ omap id
            [Cov.per_base out; Cov.regions out; Cov.quantize out; Cov.thresholds out] →
            Some p ≠ Some a) as Hnot.
  { intros a p Hp Ha [= ->]. apply Hp. unfold artifact_paths. by apply list_elem_of_further. }
  apply preserves_bind; [apply preserves_file_uptodate|]. intros fresh.
  apply preserves_bind; [|intros; apply preserves_ret].
  destruct fresh; [apply preserves_ret|]. simpl negb. cbv iota.
  apply preserves_file_transaction.
  { intros p [Hd Hp]. split; [done|]. intros ->. apply Hp. unfold artifact_paths. apply list_elem_of_here. }
  apply preserves_bind; [by apply preserves_do_run; intros p [Hd _]|]. intros _.
  repeat (apply preserves_bind; [|intros _]).
  all: apply preserves_move_from_tx; intros p [Hd Hp]; (split; [done|]).
  all: match goal with |- _ ≠ ?f =>
         destruct f as [a|] eqn:Hf; [|done]; apply Hnot; [done|] end.
  all: rewrite <- Hf; cbn [omap id]; unfold out in *.
  all: destruct (Cov.per_base _), (Cov.regions _), (Cov.quantize _), (Cov.thresholds _);
         try done; cbn; set_solver.
Qed.

(** A successful first run makes the distribution artifact fresh: the tool
    left it at the time of the run, and the alignment file, which is older
    and is neither an artifact nor a temporary file, is untouched. *)
Lemma run_mosdepth_makes_fresh (d : data) (tn : string) (bed : option path) (pb : bool)
    (qz : option (string * list string)) (th : option (list Z)) (w w' : world)
    (b : path) (fb : file) :
  let out := mosdepth_out d tn bed pb qz th in
  run_mosdepth X d tn bed pb qz th w = (Ok out, w') →
  uptodate (files w) (Cov.dist out) (or_else (align_bam d) (work_bam d)) = false →
  or_else (align_bam d) (work_bam d) = Some b →
  files w !! b = Some fb → mtime fb ≤ clock w →
  dirname b ≠ tx_dir (dirname (mosdepth_prefix d tn)) → b ∉ artifact_paths out →
  ".mosdepth.dist.txt" ∈
    (outputs (mosdepth X (issued_cmd d tn bed pb qz th) (files_at_start d tn w))).*1 →
  uptodate (files w') (Cov.dist out) (Some b) = true.
Proof.
  intros out Hrun Hstale Hbam Hb Hold Hdir Hart Hdist.
  pose proof (run_mosdepth_frame d tn bed pb qz th w _ _ Hrun b (conj Hdir Hart)) as Hb'.
  unfold run_mosdepth in Hrun. fold out in Hrun.
  apply bind_ok_inv in Hrun as (fresh & w0 & Hup & Hrun).
  unfold file_uptodate in Hup. rewrite Hstale in Hup. injection Hup as <- <-.
  simpl negb in Hrun. cbv iota in Hrun.
  apply bind_ok_inv in Hrun as ([] & w1 & Htx & [= <-]).
  apply file_transaction_ok_inv in Htx as (w2 & Hbody & ->).
  change (dirname (Cov.dist out)) with (dirname (mosdepth_prefix d tn)) in *.
  set (tx := tx_dir (dirname (mosdepth_prefix d tn))) in *.
  apply bind_ok_inv in Hbody as ([] & wa & Hdo & Hmoves).
  cbn [tx_path dirname] in Hdo.
  change (mosdepth_cmdline _ _ _ _ _ _ _) with (issued_cmd d tn bed pb qz th) in Hdo.
  (* the tool left the distribution file in the temporary directory *)
  assert (∃ ls, files wa !! Path tx (basename (Cov.dist out))
                  = Some (File (Text ls) (clock w))) as [ls Hls].
  { unfold do_run in Hdo. case_bool_decide; [|done]. injection Hdo as <-.
    cbn [files]. exact (tool_outputs_lookup _ _ _ _ _ Hdist). }
  (* the moves of the other artifacts leave it there *)
  assert (files w2 !! Path tx (basename (Cov.dist out))
            = Some (File (Text ls) (clock w))) as Hls2.
  { rewrite <- Hls. revert Hmoves.
    match goal with |- ?m wa = _ → _ =>
      assert (preserves (λ p, p = Path tx (basename (Cov.dist out))) m) as Hpres end.
    { repeat (apply preserves_bind; [|intros _]).
      all: unfold move_from_tx.
      all: match goal with |- preserves _ (match ?f with _ => _ end) =>
             destruct f as [a|] eqn:Hf; [|apply preserves_ret] end.
      all: apply preserves_shutil_move; intros p ->.
      all: destruct (optional_artifact d tn bed pb qz th a) as [Hda Hba];
             [fold out; rewrite <- Hf;
              repeat first [apply list_elem_of_here | apply list_elem_of_further]|].
      all: split; [intros [= Hbase]; by apply Hba|].
      all: intros <-; cbn [dirname] in Hda; exact (tx_dir_ne _ Hda). }
    intros Hmoves. by apply (Hpres _ _ _ Hmoves). }
  revert Hb'. change (tx_path (Cov.dist out)) with (Path tx (basename (Cov.dist out))).
  rewrite Hls2. intros Hb'.
  unfold uptodate. cbn [mbind option_bind]. rewrite Hb', Hb.
  rewrite rmtree_lookup_ne by (intros H; symmetry in H; exact (tx_dir_ne _ H)).
  cbn [set_files files]. rewrite lookup_insert_eq. cbn [mtime].
  by apply Z.leb_le.
Qed.


(** What one failed transaction of [run_mosdepth] leaves: the tool ran once,
    and every file outside the temporary directory is as it was. *)
Lemma run_mosdepth_failed_run (d : data) (tn : string) (bed : option path) (pb : bool)
    (qz : option (string * list string)) (th : option (list Z)) (w : world) :
  let bam_file := or_else (align_bam d) (work_bam d) in
  let out := mosdepth_out d tn bed pb qz th in
  let tx := tx_dir (dirname (mosdepth_prefix d tn)) in
  uptodate (files w) (Cov.dist out) bam_file = false →
  exit_status (mosdepth X (issued_cmd d tn bed pb qz th) (files_at_start d tn w)) ≠ 0 →
  ∃ w', run_mosdepth X d tn bed pb qz th w = (Raise CalledProcessError, w') ∧
        (∀ p, dirname p ≠ tx → files w' !! p = files w !! p) ∧
        (∀ p, dirname p = tx → files w' !! p = None) ∧
        events w' = events w ++ [Run (issued_cmd d tn bed pb qz th)].
Proof.
  intros bam_file out tx Hstale Hexit.
  unfold run_mosdepth. fold bam_file out.
  rewrite (bind_ok _ _ w false w) by (unfold file_uptodate; by rewrite Hstale).
  simpl negb. cbv iota.
  eexists. split.
  { eapply bind_raise, file_transaction_raise.
    eapply bind_raise, do_run_failed. exact Hexit. }
  split; [|split].
  - intros p Hp. rewrite rmtree_lookup_ne by done. cbn [files].
    rewrite tool_outputs_lookup_ne by done.
    by apply rmtree_lookup_ne.
  - intros p Hp. by apply rmtree_lookup_eq.
  - reflexivity.
Qed.

(** C3.  When the distribution artifact is stale and the depth tool exits with
    a non-zero status, [run_mosdepth] raises and the file system is unchanged
    at every final artifact path (distribution, per-base, regions, quantized,
    thresholds); the distribution artifact is still stale, so that a retry
    runs the tool again. *)
Theorem run_mosdepth_atomic_on_failure (d : data) (tn : string) (bed : option path)
    (pb : bool) (qz : option (string * list string)) (th : option (list Z)) (w : world) :
  let bam_file := or_else (align_bam d) (work_bam d) in
  let out := mosdepth_out d tn bed pb qz th in
  uptodate (files w) (Cov.dist out) bam_file = false →
  exit_status (mosdepth X (issued_cmd d tn bed pb qz th) (files_at_start d tn w)) ≠ 0 →
  ∃ w', run_mosdepth X d tn bed pb qz th w = (Raise CalledProcessError, w') ∧
        (∀ p, p ∈ artifact_paths out → files w' !! p = files w !! p) ∧
        uptodate (files w') (Cov.dist out) bam_file = false.
Proof.
  intros bam_file out Hstale Hexit.
  destruct (run_mosdepth_failed_run d tn bed pb qz th w Hstale Hexit)
    as (w' & Hrun & Hne & Heq & _).
  exists w'. split; [done|].
  assert (∀ p, p ∈ artifact_paths out → files w' !! p = files w !! p) as Hart.
  { intros p Hp. apply Hne. rewrite (artifact_paths_dirname _ _ _ _ _ _ _ Hp).
    intros H. symmetry in H. exact (tx_dir_ne _ H). }
  split; [done|].
  revert Hstale. unfold uptodate.
  rewrite (Hart (Cov.dist out)) by (unfold artifact_paths; set_solver).
  destruct (files w !! Cov.dist out) as [f|]; [|done].
  destruct bam_file as [b|]; simpl; [|done].
  destruct (decide (dirname b = tx_dir (dirname (mosdepth_prefix d tn)))) as [Hb|Hb].
  - by rewrite (Heq b Hb).
  - by rewrite (Hne b Hb).
Qed.

(** C4.  When the distribution artifact is fresh relative to the alignment
    file, [run_mosdepth] returns the artifact paths and is the identity on the
    world: no tool invocation is recorded and no file, hence no modification
    time, changes. *)
Theorem run_mosdepth_fresh_identity (d : data) (tn : string) (bed : option path)
    (pb : bool) (qz : option (string * list string)) (th : option (list Z)) (w : world) :
  let out := mosdepth_out d tn bed pb qz th in
  uptodate (files w) (Cov.dist out) (or_else (align_bam d) (work_bam d)) = true →
  run_mosdepth X d tn bed pb qz th w = (Ok out, w).
Proof.
  intros out Hfresh. unfold run_mosdepth. fold out. unfold_M.
  by rewrite Hfresh.
Qed.

Lemma mosdepth_cmd_flag (quant_export : string) (num_cores : Z)
    (mapq_arg perbase_arg bed_arg quant_arg : string) (tx_prefix : path)
    (bam_file : option path) (thresholds : string) :
  mosdepth_cmd quant_export num_cores mapq_arg perbase_arg bed_arg quant_arg tx_prefix
               bam_file thresholds =
  (quant_export +:+ "mosdepth -t " +:+ PyStr.of_int num_cores) +:+ " -F 1804 " +:+
  (mapq_arg +:+ " " +:+ perbase_arg +:+ " " +:+ bed_arg +:+ " " +:+ quant_arg +:+ " " +:+
   path_str tx_prefix +:+ " " +:+ opt_path_str bam_file +:+ " " +:+ thresholds).
Proof.
  unfold mosdepth_cmd. change (PyStr.of_int EXCLUDE_FLAG) with "1804".
  change " -F 1804 " with (" -F " +:+ "1804" +:+ " ").
  by rewrite !string_app_assoc.
Qed.

(** C8.  The command line of every invocation carries [-F 1804].  That flag
    is the documented filter (unmapped, secondary, QC-fail, duplicate: 1796)
    with the mate-unmapped bit 0x8 set as well, so it is not the bitwise OR of
    the four flags alone. *)
Theorem mosdepth_exclude_flag (d : data) (bam_file bed : option path) (pb : bool)
    (qz : option (string * list string)) (th : option (list Z)) (tx_prefix : path) :
  (∃ pre post, mosdepth_cmdline d bam_file bed pb qz th tx_prefix
                 = pre +:+ " -F 1804 " +:+ post) ∧
  EXCLUDE_FLAG = Z.lor documented_filter BAM_FMUNMAP ∧
  Z.land EXCLUDE_FLAG BAM_FMUNMAP = BAM_FMUNMAP ∧
  Z.land documented_filter BAM_FMUNMAP = 0 ∧
  EXCLUDE_FLAG ≠ documented_filter.
Proof.
  split; [|by vm_compute].
  unfold mosdepth_cmdline.
  destruct qz as [[q0 q1]|]; cbv zeta iota beta.
  all: eexists _, _; apply mosdepth_cmd_flag.
Qed.

Lemma transaction_write (final : path) (c : content) (w : world) :
  ∃ w', file_transaction final (λ tx, write_file tx c) w = (Ok tt, w') ∧
        events w' = events w.
Proof.
  eexists. split; [by apply file_transaction_ok|].
  cbn [write_file files]. rewrite lookup_insert_eq. reflexivity.
Qed.

Lemma create_genome_regions_ok (d : data) (w : world) :
  ∃ vr w', _create_genome_regions X d w = (Ok vr, w') ∧ events w' = events w.
Proof.
  unfold _create_genome_regions.
  edestruct transaction_write as (w' & Htx & Hev).
  eexists _, w'. split; [|exact Hev].
  erewrite bind_ok by exact Htx. reflexivity.
Qed.

Lemma subset_to_variant_regions_ok (callable_file vr : path) (d : data) (w : world) :
  ∃ w', _subset_to_variant_regions X (Some callable_file) vr d w
          = (Ok (add_suffix (splitext_plus_base X callable_file) "-vrsubset.bed"), w') ∧
        events w' = events w.
Proof.
  unfold _subset_to_variant_regions.
  set (out_file := add_suffix _ _).
  destruct (uptodate (files w) out_file (Some callable_file)) eqn:Hf.
  - exists w. split; [|done].
    erewrite bind_ok by (unfold file_uptodate; by rewrite Hf). reflexivity.
  - edestruct transaction_write as (w' & Htx & Hev).
    exists w'. split; [|exact Hev].
    erewrite bind_ok by (unfold file_uptodate; by rewrite Hf).
    simpl negb. cbv iota. erewrite bind_ok by exact Htx. reflexivity.
Qed.

(** C10.  When the callable file is fresh relative to the alignment file at
    the time [calculate] tests it, [calculate] returns the sub-setted callable
    path together with the empty mapping of depth files, and runs no tool. *)
Theorem calculate_fresh_returns_empty (bam_file : option path) (d : data) (w : world) :
  uptodate (files (world_at_check X d w)) (callable_path d) bam_file = true →
  ∃ w', calculate X bam_file d w =
          (Ok (add_suffix (splitext_plus_base X (callable_path d)) "-vrsubset.bed", ∅), w') ∧
        tool_runs w' = tool_runs w.
Proof.
  unfold world_at_check, calculate. fold (callable_path d).
  intros Hfresh.
  assert (∃ vr w1,
    (match variant_regions_merged d with
     | Some v => mret v
     | None => _create_genome_regions X d
     end) w = (Ok vr, w1) ∧ events w1 = events w ∧
    uptodate (files w1) (callable_path d) bam_file = true) as (vr & w1 & Hvr & Hev1 & Hf1).
  { destruct (variant_regions_merged d) as [v|].
    - by exists v, w.
    - destruct (create_genome_regions_ok d w) as (vr & w1 & Hc & Hev).
      exists vr, w1. rewrite Hc in Hfresh. done. }
  erewrite bind_ok by exact Hvr.
  erewrite bind_ok by (unfold file_uptodate; by rewrite Hf1).
  simpl negb. cbv iota.
  erewrite bind_ok by reflexivity. cbv beta iota.
  destruct (subset_to_variant_regions_ok (callable_path d) vr d w1) as (w2 & Hs & Hev2).
  exists w2. split.
  - erewrite bind_ok by exact Hs. reflexivity.
  - unfold tool_runs. by rewrite Hev2, Hev1.
Qed.

End Orchestrator.

(** ** Coverage Cache *)

Section Cache.

Context (X : collaborators).

Lemma trunc_inject_Z (z : Z) : PyStr.trunc (inject_Z z) = z.
Proof. unfold PyStr.trunc, inject_Z; simpl. apply Z.quot_1_r. Qed.

(** Reading the cache does not change the world. *)
Lemma read_cache_world (cache_file : path) (deps : list (option path)) (w w' : world)
    (o : outcome (gmap string Q)) :
  _read_cache cache_file deps w = (o, w') → w' = w.
Proof.
  unfold _read_cache, load_yaml.
  destruct (forallb _ _); [|by intros [= _ <-]].
  destruct (files w !! cache_file) as [[[ls|doc] t]|]; by intros [= _ <-].
Qed.

(** A fresh cache file that holds a mapping is what [_read_cache] returns. *)
Lemma read_cache_fresh (cache_file : path) (deps : list (option path)) (w : world)
    (doc : gmap string Q) (t : Z) :
  (∀ fn, fn ∈ omap id deps → uptodate (files w) cache_file (Some fn) = true) →
  files w !! cache_file = Some (File (Yaml doc) t) →
  _read_cache cache_file deps w = (Ok doc, w).
Proof.
  intros Hfresh Hfile. unfold _read_cache, load_yaml.
  replace (forallb _ _) with true; [by rewrite Hfile|].
  symmetry. apply forallb_forall. intros fn Hin. apply Hfresh.
  by apply list_elem_of_In.
Qed.

(** C7.  After a call of [get_average_coverage] that returned [v], a second
    call with the same arguments, in a world where the cache file is fresh
    relative to the alignment file and the region file, returns the same [v],
    the truncation of the value that [_read_cache] finds under
    ["avg_coverage"], and leaves the world as it is: nothing is computed again
    and nothing is written. *)
Theorem get_average_coverage_round_trip (tn : string) (bed bam : option path) (d : data)
    (w w1 : world) (v : Z) :
  let bam_file := match bam with
                  | Some _ => bam
                  | None => or_else (align_bam d) (work_bam d)
                  end in
  get_average_coverage X tn bed d bam w = (Ok v, w1) →
  (∀ fn, fn ∈ omap id [bam_file; bed] →
         uptodate (files w1) (_get_cache_file d tn) (Some fn) = true) →
  get_average_coverage X tn bed d bam w1 = (Ok v, w1) ∧
  ∃ cache x, _read_cache (_get_cache_file d tn) [bam_file; bed] w1 = (Ok cache, w1) ∧
             cache !! "avg_coverage" = Some x ∧ PyStr.trunc x = v.
Proof.
  intros bam_file Hfirst Hfresh.
  unfold get_average_coverage in Hfirst. fold bam_file in Hfirst.
  unfold mbind, M_bind in Hfirst. unfold bind at 1 in Hfirst.
  destruct (_read_cache (_get_cache_file d tn) [bam_file; bed] w)
    as [[cache|e] w0] eqn:Hread; [|done].
  pose proof (read_cache_world _ _ _ _ _ Hread) as ->.
  destruct (cache !! "avg_coverage") as [x|] eqn:Hl.
  - (* the first call was already served from the cache *)
    injection Hfirst as <- <-. split; [|by exists cache, x].
    unfold get_average_coverage. fold bam_file.
    erewrite bind_ok by exact Hread. by rewrite Hl.
  - (* the first call computed the average and wrote the cache *)
    unfold bind in Hfirst.
    destruct ((if bool_decide (is_Some bed)
               then _average_bed_coverage X bed tn d
               else _average_genome_coverage X d bam_file) w)
      as [[avg_cov|e] w'] eqn:Hcomp; [|done].
    unfold _write_cache, write_file, mret, M_ret, ret in Hfirst.
    injection Hfirst as <- Hw1.
    assert (_read_cache (_get_cache_file d tn) [bam_file; bed] w1 =
              (Ok (<["avg_coverage" := inject_Z (PyStr.trunc avg_cov)]> cache), w1)) as Hread1.
    { eapply read_cache_fresh; [exact Hfresh|]. rewrite <- Hw1. apply lookup_insert_eq. }
    split.
    + unfold get_average_coverage. fold bam_file.
      erewrite bind_ok by exact Hread1.
      rewrite lookup_insert_eq. by rewrite trunc_inject_Z.
    + eexists _, _. split; [exact Hread1|].
      split; [apply lookup_insert_eq|apply trunc_inject_Z].
Qed.

End Cache.

(** ** Region-based average coverage *)

Section Average.

Context (X : collaborators).

Lemma depth_line_region (l : string) (r : region) :
  region_of_line l = Some r →
  depth_line l = Ok ((r_depth r * inject_Z (r_length r))%Q, r_length r).
Proof.
  unfold region_of_line, depth_line.
  destruct (PyStr.split l) as [|t0 [|t1 [|t2 rest]]] eqn:Htok; try done.
  { simpl. by destruct (PyStr.to_int t1). }
  change (take 2 (drop 1 (t0 :: t1 :: t2 :: rest))) with [t1; t2].
  simpl. destruct (PyStr.to_int t1) as [a|]; [|done].
  destruct (PyStr.to_int t2) as [b|]; [|done]. simpl.
  destruct (last (t2 :: rest) ≫= PyStr.to_float) as [q|]; [|done].
  simpl. by intros [= <-].
Qed.

(** The loop adds, line by line, what the closed sums add. *)
Lemma depth_loop_regions (ls : list string) (rs : list region) (avg_covs : list Q)
    (total_len : Z) :
  regions_of_lines ls = Some rs →
  depth_loop ls avg_covs total_len =
    Ok (avg_covs ++ ((λ r, r_depth r * inject_Z (r_length r))%Q <$> rs),
        total_len + total_length rs).
Proof.
  revert rs avg_covs total_len.
  induction ls as [|l ls IH]; intros rs avg_covs total_len; simpl.
  - intros [= <-]. simpl. by rewrite app_nil_r, Z.add_0_r.
  - destruct (PyStr.startswith "#" l); [by apply IH|].
    destruct (region_of_line l) as [r|] eqn:Hr; [|done]. simpl.
    destruct (regions_of_lines ls) as [rs'|] eqn:Hrs; [|done]. simpl.
    intros [= <-]. rewrite (depth_line_region _ _ Hr). simpl.
    rewrite (IH rs') by done. rewrite <- app_assoc. simpl.
    unfold total_length. simpl. by rewrite Z.add_assoc.
Qed.

Lemma total_length_nonneg (rs : list region) :
  Forall (λ r, r_start r ≤ r_end r) rs → 0 ≤ total_length rs.
Proof.
  induction 1 as [|r rs Hr _ IH]; [done|].
  change (total_length (r :: rs)) with (r_length r + total_length rs).
  unfold r_length. lia.
Qed.

Lemma average_of_lines_formula (ls : list string) (rs : list region) :
  regions_of_lines ls = Some rs →
  0 ≤ total_length rs →
  average_of_lines ls =
    Ok (if bool_decide (total_length rs = 0)%Z then 0
        else weighted_depth rs / inject_Z (total_length rs))%Q.
Proof.
  intros Hrs Hnn. unfold average_of_lines.
  rewrite (depth_loop_regions _ _ _ _ Hrs). simpl. rewrite Z.add_0_l.
  case_bool_decide as Hz.
  - rewrite Hz. reflexivity.
  - replace (0 <? total_length rs) with true by (symmetry; apply Z.ltb_lt; lia).
    by rewrite fdiv_Z.
Qed.


End Average.

(** ** Percentile Aggregator *)

Section Percentiles.

Context (py : py_version).

Lemma in_range_rows_cons (lo hi : Z) (sample : string) (r : option total_row)
    (rs : list (option total_row)) :
  in_range_rows lo hi sample (r :: rs) =
    match r with
    | Some t => if (lo <=? t_count t) && (t_count t <=? hi)
                then pct_row (t_count t) (t_pct t) sample :: in_range_rows lo hi sample rs
                else in_range_rows lo hi sample rs
    | None => in_range_rows lo hi sample rs
    end.
Proof.
  unfold in_range_rows. destruct r as [t|]; simpl; [|done].
  rewrite filter_cons. case_decide as Hd.
  - replace ((lo <=? t_count t) && (t_count t <=? hi)) with true; [done|].
    symmetry. apply andb_true_iff. split; apply Z.leb_le; lia.
  - replace ((lo <=? t_count t) && (t_count t <=? hi)) with false; [done|].
    symmetry. apply andb_false_iff.
    destruct (decide (lo ≤ t_count t)); [right|left]; apply Z.leb_gt; lia.
Qed.

Lemma percentile_step_line (cutoffs : list Z) (lo hi : Z) (sample l : string)
    (r : option total_row) (st : pct_state) :
  py_min cutoffs = Ok lo → py_max cutoffs = Ok hi →
  dist_line l = Some r →
  percentile_step cutoffs sample l st =
    Ok (st.1 ++ in_range_rows lo hi sample [r], Some (binding_of l r)).
Proof.
  intros Hlo Hhi. unfold dist_line, percentile_step, binding_of.
  destruct (PyStr.split l) as [|contig [|count [|pct [|??]]]]; try done.
  case_bool_decide.
  2:{ intros [= <-]. by rewrite app_nil_r. }
  destruct (PyStr.to_int count) as [c|]; [|done]. simpl.
  destruct (PyStr.to_float pct) as [q|]; [|done]. simpl.
  intros [= <-]. rewrite Hlo. simpl. rewrite in_range_rows_cons. simpl.
  destruct (lo <=? c); simpl; [|by rewrite app_nil_r].
  rewrite Hhi. simpl. destruct (c <=? hi); [done|by rewrite app_nil_r].
Qed.

(** The loop writes the in-range rows in file order and leaves the binding
    of the last line. *)
Lemma percentile_loop_lines (cutoffs : list Z) (lo hi : Z) (sample : string)
    (ls : list string) (rs : list (option total_row)) (st : pct_state) :
  py_min cutoffs = Ok lo → py_max cutoffs = Ok hi →
  dist_lines ls = Some rs →
  ∃ b, percentile_loop cutoffs sample ls st = Ok (st.1 ++ in_range_rows lo hi sample rs, b) ∧
       ∀ t, last rs = Some (Some t) →
            b = Some (CInt (t_count t), PyStr.fmt1 (t_pct t * 100)).
Proof.
  intros Hlo Hhi. revert rs st.
  induction ls as [|l ls IH]; intros rs st; simpl.
  - intros [= <-]. exists st.2. split; [|done].
    destruct st. unfold in_range_rows. simpl. by rewrite app_nil_r.
  - destruct (dist_line l) as [r|] eqn:Hr; [|done]. simpl.
    destruct (dist_lines ls) as [rs'|] eqn:Hrs; [|done]. simpl.
    intros [= <-].
    rewrite (percentile_step_line _ _ _ _ _ _ _ Hlo Hhi Hr). simpl.
    destruct (IH rs' (st.1 ++ in_range_rows lo hi sample [r], Some (binding_of l r)) eq_refl)
      as (b & Hloop & Hlast).
    destruct rs' as [|r' rs'].
    + destruct ls as [|l' ls]; [|simpl in Hrs; destruct (dist_line l'); [|done];
        simpl in Hrs; destruct (dist_lines ls); done].
      simpl. eexists. split; [reflexivity|].
      simpl. by intros t [= ->].
    + exists b. split.
      * rewrite Hloop. simpl. rewrite <- app_assoc.
        rewrite (in_range_rows_cons _ _ _ r (r' :: rs')).
        rewrite (in_range_rows_cons _ _ _ r []).
        destruct r as [t|]; [|done].
        by destruct ((lo <=? t_count t) && (t_count t <=? hi)).
      * intros t Ht. apply Hlast. exact Ht.
Qed.

(** In a list in descending order the last element is a smallest one. *)
Lemma last_of_descending (ts : list total_row) (t : total_row) :
  StronglySorted (λ a b, t_count b ≤ t_count a) ts →
  last ts = Some t →
  ∀ t', t' ∈ ts → t_count t ≤ t_count t'.
Proof.
  induction 1 as [|a ts Hs IH Hall]; [done|].
  intros Hlast t' Hin. destruct ts as [|b ts].
  - simpl in Hlast. injection Hlast as <-. apply list_elem_of_singleton in Hin. by subst.
  - change (last (a :: b :: ts)) with (last (b :: ts)) in Hlast.
    apply elem_of_cons in Hin as [->|Hin]; [|by apply IH].
    rewrite Forall_forall in Hall. apply Hall.
    by apply last_Some_elem_of.
Qed.

Lemma last_omap_id {A} (xs : list (option A)) (x : A) :
  last xs = Some (Some x) → last (omap id xs) = Some x.
Proof.
  induction xs as [|y xs IH]; [done|].
  destruct xs as [|z xs].
  - simpl. by intros [= ->].
  - intros H. specialize (IH H).
    change (omap id (y :: z :: xs)) with
      (match y with Some a => a :: omap id (z :: xs) | None => omap id (z :: xs) end).
    destruct y; [|done]. destruct (omap id (z :: xs)); done.
Qed.


End Percentiles.

(** * The statements on the sample inputs *)

Module Runs.
Import Sample.


(** C5 on the sample: 995 of 1000 reads are on target. *)
Lemma count_offtarget_sample :
  ∃ q, _count_offtarget (X tool_ok) d (Some bam) (Some targets) "variant_regions" = Ok q ∧
       (0 <= q ∧ q <= 1)%Q.
Proof.
  destruct (count_offtarget_ratio (X tool_ok) d (Some bam) (Some targets) "variant_regions")
    as (q & Hq & _ & _ & Hb).
  - simpl. lia.
  - by exists q.
Defined.

(** C9 on the sample once it is labelled. *)
Lemma assign_interval_twice :
  assign_interval (X tool_ok) d_genome w = (Ok d_genome, w).
Proof. apply assign_interval_noop. by eexists. Defined.

(** C3 on the sample: a failed run leaves nothing at the final paths of the
    bundle. *)
Lemma failed_run_leaves_nothing :
  ∃ w', run tool_failed w = (Raise CalledProcessError, w') ∧
        (∀ p, p ∈ artifact_paths out → files w' !! p = files w !! p) ∧
        uptodate (files w') (Cov.dist out) (Some bam) = false.
Proof.
  apply (run_mosdepth_atomic_on_failure (X tool_failed) d "coverage" (Some targets)
           false None (Some DEPTH_THRESHOLDS) w).
  - vm_compute. reflexivity.
  - simpl. discriminate.
Defined.

(** C4 on the sample: the second run after a successful one changes
    nothing. *)
Lemma second_run_identity : run tool_ok w_run = (Ok out, w_run).
Proof.
  apply (run_mosdepth_fresh_identity (X tool_ok) d "coverage" (Some targets)
           false None (Some DEPTH_THRESHOLDS) w_run).
  vm_compute. reflexivity.
Defined.


(** C7 on the sample: the second request for the average is served from the
    cache. *)
Lemma second_average_from_cache :
  get_average_coverage (X tool_ok) "coverage" (Some targets) d None w_cached
    = (Ok 20, w_cached).
Proof.
  apply (get_average_coverage_round_trip (X tool_ok) "coverage" (Some targets) None d
           w w_cached 20).
  - vm_compute. reflexivity.
  - intros fn Hin. apply list_elem_of_In in Hin. simpl in Hin.
    destruct Hin as [<-|[<-|[]]]; vm_compute; reflexivity.
Defined.

(** C10 on the sample: with a fresh callable file, [calculate] reports no
    depth files. *)
Lemma calculate_fresh_sample :
  ∃ w', calculate (X tool_ok) (Some bam) d w_callable =
          (Ok (Path "/w/align/S" "S-coverage.callable-vrsubset.bed", ∅), w') ∧
        tool_runs w' = tool_runs w_callable.
Proof.
  apply (calculate_fresh_returns_empty (X tool_ok) (Some bam) d w_callable).
  vm_compute. reflexivity.
Defined.



(** The first run of the sample succeeds. *)
Example first_run_ok : run tool_ok w = (Ok out, w_run).
Proof. vm_compute. reflexivity. Qed.

(** With no callable file of the old layout, [calculate] runs the tool for
    the targets that have regions and reports their artifacts. *)
Example calculate_stale_sample :
  match calculate (X tool_ok) (Some bam) d w with
  | (Ok (final, m), w') =>
      final = Path "/w/coverage/S" "S-variant_regions.quantized-vrsubset.bed" ∧
      m !! "variant_regions" ≫= (.!! "dist") =
        Some (Path "/w/coverage/S" "S-variant_regions.mosdepth.dist.txt") ∧
      m !! "coverage" ≫= (.!! "thresholds") =
        Some (Path "/w/coverage/S" "S-coverage.thresholds.bed.gz") ∧
      m !! "sv_regions" = None ∧
      length (tool_runs w') = 2%nat
  | _ => False
  end.
Proof. vm_compute. repeat split. Qed.

(** The summary table of the sample, as [_calculate_percentiles] writes it. *)
Example sample_summary :
  match _calculate_percentiles (X tool_ok) Py3 (Cov.dist out) DEPTH_THRESHOLDS d w_run with
  | (Ok fs, w') =>
      fs = [Path "/w/coverage/S" "S_bcbio_coverage_avg.txt"] ∧
      body <$> files w' !! Path "/w/coverage/S" "S_bcbio_coverage_avg.txt" =
        Some (Text ["cutoff_reads" +:+ TAB +:+ "bases_pct" +:+ TAB +:+ "sample";
                    "percentage50000" +:+ TAB +:+ "1.0" +:+ TAB +:+ "S";
                    "percentage10" +:+ TAB +:+ "95.0" +:+ TAB +:+ "S";
                    "percentage1" +:+ TAB +:+ "95.0" +:+ TAB +:+ "S"])
  | _ => False
  end.
Proof. vm_compute. repeat split. Qed.

(** The command of the sample run, as the tool receives it. *)
Example sample_command :
  tool_runs w_run =
    ["mosdepth -t 8 -F 1804  --no-per-base --by /w/vr.bed  /w/coverage/S/tx/S-coverage /w/S.bam -T 1,5,10,20,50,100,250,500,1000,5000,10000,50000"].
Proof. vm_compute. reflexivity. Qed.

End Runs.

(** * Further properties of the module *)

(** A computation that succeeds on a given world has a result there to
    speak about. *)
Lemma on_success {A} (m : M A) (w : world) (P : A → world → Prop) :
  (∀ a w', m w = (Ok a, w') → P a w') →
  match m w with (Ok _, _) => True | _ => False end →
  ∃ a w', m w = (Ok a, w') ∧ P a w'.
Proof.
  destruct (m w) as [[a|e] w']; [|done]. intros H _. exists a, w'. split; [done|]. by apply H.
Qed.

(** ** Interval Classifier: effects and edge cases *)

Section ClassifierMore.

Context (X : collaborators).

(** What a classifying call does, read backwards from its result. *)
Lemma assign_interval_unset_inv (d d' : data) (w w' : world) :
  coverage_interval d = None →
  assign_interval X d w = (Ok d', w') →
  ∃ label msg,
    (label = "genome" ∨ label = "regional" ∨ label = "amplicon") ∧
    d' = set_coverage_interval label d ∧
    w' = World (files w) (clock w) (events w ++ [Info msg]).
Proof.
  intros Hunset. unfold assign_interval. rewrite Hunset.
  rewrite (bool_decide_eq_false_2 (is_Some None)) by (by intros [? ?]).
  simpl negb. cbv iota. unfold_M.
  destruct (fdiv _ _) as [pct|e]; [|done].
  destruct (Qgtb pct GENOME_COV_THRESH).
  { intros [= <- <-]. eexists "genome", _. eauto. }
  destruct (negb (bool_decide (is_Some (variant_regions_merged d)))).
  { intros [= <- <-]. eexists "regional", _. eauto. }
  rewrite count_offtarget_value. cbv beta iota zeta.
  match goal with |- context [Qgtb ?q OFFTARGET_THRESH] => destruct (Qgtb q OFFTARGET_THRESH) end.
  - intros [= <- <-]. eexists "regional", _. eauto.
  - intros [= <- <-]. eexists "amplicon", _. eauto 6.
Qed.

(** X1.  The label is set once: after any successful call of
    [assign_interval] the context carries a label, and a further call on the
    result returns the same context and changes nothing. *)
Theorem assign_interval_sets_once (d d' : data) (w w' : world) :
  assign_interval X d w = (Ok d', w') →
  is_Some (coverage_interval d') ∧ assign_interval X d' w' = (Ok d', w').
Proof.
  intros Hrun.
  assert (is_Some (coverage_interval d')) as Hset.
  { destruct (coverage_interval d) as [v|] eqn:Hd.
    - unfold assign_interval in Hrun. rewrite Hd in Hrun.
      rewrite bool_decide_eq_true_2 in Hrun by eauto.
      injection Hrun as <- <-. rewrite Hd. eauto.
    - destruct (assign_interval_unset_inv d d' w w' Hd Hrun) as (label & msg & _ & -> & _).
      simpl. eauto. }
  split; [done|]. unfold assign_interval. by rewrite bool_decide_eq_true_2.
Qed.

(** X2.  A reference without any base: with [coverage_interval] unset and a
    total contig length of 0, [assign_interval] raises ZeroDivisionError
    before it logs or sets anything. *)
Theorem assign_interval_empty_reference (d : data) (w : world) :
  coverage_interval d = None →
  sum_sizes (file_contigs X d) = 0 →
  assign_interval X d w = (Raise ZeroDivisionError, w).
Proof.
  intros Hunset Hzero. unfold assign_interval. rewrite Hunset, Hzero.
  rewrite (bool_decide_eq_false_2 (is_Some None)) by (by intros [? ?]).
  reflexivity.
Qed.


End ClassifierMore.

(** ** Depth Orchestrator: the log, the temporary directory, delivery *)

Section OrchestratorMore.

Context (X : collaborators).

Lemma events_bind_quiet {A B} (m : M A) (k : A → M B) (w : world) :
  (∀ a w1, events (k a w1).2 = events w1) →
  events ((m ≫= k) w).2 = events (m w).2.
Proof.
  intros Hk. unfold mbind, M_bind, bind.
  destruct (m w) as [[a|e] w1]; [apply Hk|done].
Qed.

Lemma events_file_transaction {A} (final : path) (body : path → M A) (w : world) :
  events (file_transaction final body w).2 =
  events (body (tx_path final) (rmtree (tx_dir (dirname final)) w)).2.
Proof.
  unfold file_transaction. cbn [tx_path dirname].
  destruct (body _ _) as [[a|e] w1]; [|done].
  by destruct (files w1 !! _).
Qed.

Lemma events_move_from_tx (tx_out_file : path) (final : option path) (w : world) :
  events (move_from_tx tx_out_file final w).2 = events w.
Proof.
  destruct final as [f|]; [|done]. unfold move_from_tx, shutil_move.
  by destruct (files w !! _).
Qed.

Lemma events_do_run (cmd : string) (prefix : path) (w : world) :
  events (do_run X cmd prefix w).2 = events w ++ [Run cmd].
Proof. unfold do_run. by case_bool_decide. Qed.


Lemma files_bind_mret {A B} (m : M A) (b : B) (w : world) :
  ((m ≫= λ _, mret b) w).2 = (m w).2.
Proof. unfold mbind, M_bind, bind. by destruct (m w) as [[a|e] w1]. Qed.

Lemma file_transaction_cleans {A} (final : path) (body : path → M A) (w : world) (p : path) :
  dirname p = tx_dir (dirname final) →
  files (file_transaction final body w).2 !! p = None.
Proof.
  intros Hp. unfold file_transaction. cbn [tx_path dirname].
  destruct (body _ _) as [[a|e] w1]; by apply rmtree_lookup_eq.
Qed.


(** One move out of the temporary directory, for an artifact that was asked
    for and that the tool left there. *)
Lemma move_from_tx_ok (tx_out_file prefix : path) (t : Z) (s : string) (o : option path)
    (w : world) :
  let txp := Path (dirname tx_out_file) (basename prefix) in
  dirname tx_out_file ≠ dirname prefix →
  o = None ∨ o = Some (add_suffix prefix s) →
  (is_Some o → left_at txp t s w) →
  ∃ w', move_from_tx tx_out_file o w = (Ok tt, w') ∧
        (is_Some o → left_at prefix t s w') ∧
        (∀ s', s' ≠ s → left_at txp t s' w → left_at txp t s' w') ∧
        (∀ s', left_at prefix t s' w → left_at prefix t s' w') ∧
        (∀ p, Some p ≠ o → p ≠ add_suffix txp s → files w' !! p = files w !! p).
Proof.
  intros txp Hdir [->| ->] Hleft.
  { exists w. split; [done|]. split; [by intros [? ?]|]. done. }
  destruct Hleft as [ls Hls]; [by eexists|].
  unfold move_from_tx, shutil_move. cbn [add_suffix basename dirname].
  change (Path (dirname tx_out_file) (basename prefix +:+ s)) with (add_suffix txp s).
  rewrite Hls. eexists. split; [reflexivity|]. unfold left_at. cbn [set_files files].
  change (Path (dirname prefix) (basename prefix +:+ s)) with (add_suffix prefix s).
  split; [|split; [|split]].
  - intros _. exists ls. apply lookup_insert_eq.
  - intros s' Hne [ls' Hls']. exists ls'.
    rewrite lookup_insert_ne by (intros [= H _]; by apply Hdir).
    rewrite lookup_delete_ne by (intros H%add_suffix_inj; by apply Hne).
    exact Hls'.
  - intros s' [ls' Hls']. destruct (decide (s' = s)) as [->|Hne].
    + exists ls. apply lookup_insert_eq.
    + exists ls'. rewrite lookup_insert_ne by (intros H%add_suffix_inj; by apply Hne).
      rewrite lookup_delete_ne by (intros [= H _]; by apply Hdir).
      exact Hls'.
  - intros p Hp Hsrc. rewrite lookup_insert_ne by congruence.
    by rewrite lookup_delete_ne.
Qed.

Lemma tool_outputs_lookup_notin (prefix : path) (t : Z) (outs : list (string * list string))
    (fs : gmap path file) (sfx : string) :
  sfx ∉ outs.*1 →
  foldr (λ o fs, <[add_suffix prefix o.1 := File (Text o.2) t]> fs) fs outs
    !! add_suffix prefix sfx = fs !! add_suffix prefix sfx.
Proof.
  induction outs as [|[s0 ls0] outs IH]; simpl; [done|].
  intros Hnin. apply not_elem_of_cons in Hnin as [Hne Hnin].
  rewrite lookup_insert_ne by (intros H%add_suffix_inj; by apply Hne).
  by apply IH.
Qed.

Lemma do_run_ok (cmd : string) (prefix : path) (w : world) :
  exit_status (mosdepth X cmd (files w)) = 0 →
  do_run X cmd prefix w =
    (Ok tt,
     World (foldr (λ o fs, <[add_suffix prefix o.1 := File (Text o.2) (clock w)]> fs)
                  (files w) (outputs (mosdepth X cmd (files w))))
           (clock w + 1) (events w ++ [Run cmd])).
Proof. intros H. unfold do_run. by rewrite bool_decide_eq_true_2. Qed.

Lemma optional_in_artifacts (out : MosdepthCov) (a : path) :
  Some a ∈ [Cov.per_base out; Cov.regions out; Cov.quantize out; Cov.thresholds out] →
  a ∈ artifact_paths out.
Proof.
  intros H. unfold artifact_paths. apply list_elem_of_further.
  apply list_elem_of_omap. by exists (Some a).
Qed.

(** X6.  Delivery: when the distribution artifact is stale, the depth tool
    exits with 0 and leaves a file for every artifact of the bundle, the run
    returns the bundle and every artifact is at its final path, as the tool
    wrote it, with the time of the run. *)
Theorem run_mosdepth_delivers (d : data) (tn : string) (bed : option path) (pb : bool)
    (qz : option (string * list string)) (th : option (list Z)) (w : world) :
  let out := mosdepth_out d tn bed pb qz th in
  let r := mosdepth X (issued_cmd d tn bed pb qz th) (files_at_start d tn w) in
  uptodate (files w) (Cov.dist out) (or_else (align_bam d) (work_bam d)) = false →
  exit_status r = 0 →
  (∀ sfx, add_suffix (mosdepth_prefix d tn) sfx ∈ artifact_paths out →
          sfx ∈ (outputs r).*1) →
  ∃ w', run_mosdepth X d tn bed pb qz th w = (Ok out, w') ∧
        ∀ p, p ∈ artifact_paths out →
             ∃ ls, files w' !! p = Some (File (Text ls) (clock w)).
Proof.
  intros out r Hstale Hexit Hall.
  set (prefix := mosdepth_prefix d tn) in *.
  set (txd := tx_dir (dirname prefix)).
  set (txf := tx_path (Cov.dist out)).
  set (txp := Path (dirname txf) (basename prefix)).
  set (w0 := rmtree txd w).
  assert (dirname txf ≠ dirname prefix) as Hdir by apply tx_dir_ne.
  (* the tool run *)
  pose proof (do_run_ok (issued_cmd d tn bed pb qz th) txp w0 Hexit) as Hdo.
  set (wa := World _ _ _) in Hdo.
  assert (∀ sfx, add_suffix prefix sfx ∈ artifact_paths out →
                 left_at txp (clock w) sfx wa) as Htmp.
  { intros sfx Hin. apply (tool_outputs_lookup txp (clock w) _ (files w0) sfx).
    by apply Hall. }
  (* the four moves *)
  assert (∀ o s, o = None ∨ o = Some (add_suffix prefix s) →
                 o ∈ [Cov.per_base out; Cov.regions out; Cov.quantize out; Cov.thresholds out] →
                 is_Some o → left_at txp (clock w) s wa) as Hreq.
  { intros o s [->| ->] Hin Ho; [by destruct Ho|].
    by apply Htmp, optional_in_artifacts. }
  assert (Cov.per_base out = None ∨
          Cov.per_base out = Some (add_suffix prefix ".per-base.bed.gz")) as Ho1
    by (unfold out, mosdepth_out; cbn; destruct pb; auto).
  assert (Cov.regions out = None ∨
          Cov.regions out = Some (add_suffix prefix ".regions.bed.gz")) as Ho2
    by (unfold out, mosdepth_out; cbn; destruct (bool_decide _); auto).
  assert (Cov.quantize out = None ∨
          Cov.quantize out = Some (add_suffix prefix ".quantized.bed.gz")) as Ho3
    by (unfold out, mosdepth_out; cbn; destruct (bool_decide _); auto).
  assert (Cov.thresholds out = None ∨
          Cov.thresholds out = Some (add_suffix prefix ".thresholds.bed.gz")) as Ho4
    by (unfold out, mosdepth_out; cbn; destruct th as [[|??]|]; auto).
  destruct (move_from_tx_ok txf prefix (clock w) _ _ wa Hdir Ho1)
    as (w1 & Hm1 & Hf1 & Hk1 & Hp1 & _).
  { apply (Hreq _ _ Ho1), list_elem_of_here. }
  destruct (move_from_tx_ok txf prefix (clock w) _ _ w1 Hdir Ho2)
    as (w2 & Hm2 & Hf2 & Hk2 & Hp2 & _).
  { intros Ho. apply Hk1; [done|].
    apply (Hreq _ _ Ho2); [apply list_elem_of_further, list_elem_of_here|done]. }
  destruct (move_from_tx_ok txf prefix (clock w) _ _ w2 Hdir Ho3)
    as (w3 & Hm3 & Hf3 & Hk3 & Hp3 & _).
  { intros Ho. apply Hk2; [done|]. apply Hk1; [done|].
    apply (Hreq _ _ Ho3); [do 2 apply list_elem_of_further; apply list_elem_of_here|done]. }
  destruct (move_from_tx_ok txf prefix (clock w) _ _ w3 Hdir Ho4)
    as (w4 & Hm4 & Hf4 & Hk4 & Hp4 & _).
  { intros Ho. apply Hk3; [done|]. apply Hk2; [done|]. apply Hk1; [done|].
    apply (Hreq _ _ Ho4); [do 3 apply list_elem_of_further; apply list_elem_of_here|done]. }
  (* the distribution file is still in the temporary directory *)
  assert (left_at txp (clock w) ".mosdepth.dist.txt" w4) as [lsd Hd4].
  { apply Hk4; [done|]. apply Hk3; [done|]. apply Hk2; [done|]. apply Hk1; [done|].
    apply Htmp. unfold artifact_paths. apply list_elem_of_here. }
  change (add_suffix txp ".mosdepth.dist.txt") with txf in Hd4.
  eexists. split.
  { unfold run_mosdepth. fold out prefix.
    erewrite bind_ok by (unfold file_uptodate; by rewrite Hstale).
    cbn [negb].
    erewrite bind_ok; [reflexivity|].
    apply file_transaction_ok. fold txf txd w0.
    erewrite bind_ok by exact Hdo.
    erewrite bind_ok by exact Hm1.
    erewrite bind_ok by exact Hm2.
    erewrite bind_ok by exact Hm3.
    exact Hm4. }
  fold txf. rewrite Hd4. intros p Hp.
  rewrite rmtree_lookup_ne by
    (rewrite (artifact_paths_dirname _ _ _ _ _ _ _ Hp); intros H; symmetry in H;
     exact (tx_dir_ne _ H)).
  cbn [set_files files].
  unfold artifact_paths in Hp. apply elem_of_cons in Hp as [->|Hp].
  { exists lsd. apply lookup_insert_eq. }
  apply list_elem_of_omap in Hp as (o & Ho & Hid). destruct o as [a|]; [|done].
  injection Hid as ->.
  destruct (optional_artifact d tn bed pb qz th p Ho) as [Hpd Hpb].
  rewrite lookup_insert_ne by (intros <-; by apply Hpb).
  rewrite lookup_delete_ne by (intros <-; by apply Hdir).
  assert (∃ s, left_at prefix (clock w) s w4 ∧ p = add_suffix prefix s) as (s & [ls Hls] & ->).
  { fold out in Ho. rewrite !elem_of_cons, elem_of_nil in Ho.
    destruct Ho as [Ho|[Ho|[Ho|[Ho|[]]]]].
    - destruct Ho1 as [Hn|Hs]; [congruence|]. eexists. split.
      + apply Hp4, Hp3, Hp2, Hf1. by rewrite <- Ho.
      + congruence.
    - destruct Ho2 as [Hn|Hs]; [congruence|]. eexists. split.
      + apply Hp4, Hp3, Hf2. by rewrite <- Ho.
      + congruence.
    - destruct Ho3 as [Hn|Hs]; [congruence|]. eexists. split.
      + apply Hp4, Hf3. by rewrite <- Ho.
      + congruence.
    - destruct Ho4 as [Hn|Hs]; [congruence|]. eexists. split.
      + apply Hf4. by rewrite <- Ho.
      + congruence. }
  by exists ls.
Qed.

(** X7.  Delivery is not atomic: the optional artifacts are moved to their
    final paths inside the transaction.  When the tool exits with 0 and
    leaves the regions file but not the quantized file that was asked for,
    the run raises IOError after the regions artifact has reached its final
    path, while the distribution artifact is as it was before the run. *)
Theorem run_mosdepth_partial_delivery (d : data) (tn : string) (b : path)
    (q : string * list string) (th : option (list Z)) (w : world) :
  let out := mosdepth_out d tn (Some b) false (Some q) th in
  let r := mosdepth X (issued_cmd d tn (Some b) false (Some q) th) (files_at_start d tn w) in
  uptodate (files w) (Cov.dist out) (or_else (align_bam d) (work_bam d)) = false →
  exit_status r = 0 →
  ".regions.bed.gz" ∈ (outputs r).*1 →
  ".quantized.bed.gz" ∉ (outputs r).*1 →
  ∃ w', run_mosdepth X d tn (Some b) false (Some q) th w = (Raise IOError, w') ∧
        left_at (mosdepth_prefix d tn) (clock w) ".regions.bed.gz" w' ∧
        files w' !! Cov.dist out = files w !! Cov.dist out.
Proof.
  intros out r Hstale Hexit Hreg Hquant.
  set (prefix := mosdepth_prefix d tn) in *.
  set (txd := tx_dir (dirname prefix)).
  set (txf := tx_path (Cov.dist out)).
  set (txp := Path (dirname txf) (basename prefix)).
  set (w0 := rmtree txd w).
  assert (dirname txf ≠ dirname prefix) as Hdir by apply tx_dir_ne.
  pose proof (do_run_ok (issued_cmd d tn (Some b) false (Some q) th) txp w0 Hexit) as Hdo.
  set (wa := World _ _ _) in Hdo.
  destruct (move_from_tx_ok txf prefix (clock w) ".regions.bed.gz"
              (Some (add_suffix prefix ".regions.bed.gz")) wa Hdir (or_intror eq_refl))
    as (w2 & Hm2 & Hf2 & _ & _ & Hother).
  { intros _. exact (tool_outputs_lookup txp (clock w) _ (files w0) _ Hreg). }
  assert (files w2 !! add_suffix txp ".quantized.bed.gz" = None) as Hq2.
  { rewrite Hother;
      [|intros [= H _]; by apply Hdir|intros H%add_suffix_inj; discriminate].
    unfold wa. cbn [files].
    rewrite tool_outputs_lookup_notin by done.
    by apply rmtree_lookup_eq. }
  exists (rmtree txd w2). split; [|split].
  - unfold run_mosdepth. fold out prefix.
    erewrite bind_ok by (unfold file_uptodate; by rewrite Hstale).
    cbn [negb].
    eapply bind_raise, file_transaction_raise. fold txf txd w0.
    erewrite bind_ok by exact Hdo.
    erewrite bind_ok by reflexivity.
    erewrite bind_ok by exact Hm2.
    eapply bind_raise.
    unfold move_from_tx, shutil_move. cbn [out mosdepth_out Cov.quantize].
    rewrite bool_decide_eq_true_2 by eauto.
    cbn [add_suffix basename dirname].
    change (Path (dirname txf) (basename (mosdepth_prefix d tn) +:+ ".quantized.bed.gz"))
      with (add_suffix txp ".quantized.bed.gz").
    by rewrite Hq2.
  - destruct Hf2 as [ls Hls]; [by eexists|]. exists ls.
    rewrite rmtree_lookup_ne by (intros H; symmetry in H; exact (tx_dir_ne _ H)).
    exact Hls.
  - rewrite rmtree_lookup_ne by (intros H; symmetry in H; exact (tx_dir_ne _ H)).
    rewrite Hother.
    + unfold wa. cbn [files]. rewrite tool_outputs_lookup_ne by (intros H; by apply Hdir).
      apply rmtree_lookup_ne. intros H; symmetry in H; exact (tx_dir_ne _ H).
    + intros [= H]. by apply String.app_inj in H.
    + intros [= H _]. symmetry in H. exact (tx_dir_ne _ H).
Qed.

End OrchestratorMore.

(** ** How often the tool runs *)

Section ToolBudget.

Context (X : collaborators).

Lemma tool_only_quiet {A} (m : M A) :
  (∀ w, events (m w).2 = events w) → tool_only 0 m.
Proof. intros H w. exists []. simpl. by rewrite H, app_nil_r. Qed.

Lemma tool_only_ret {A} (a : A) : tool_only 0 (mret a : M A).
Proof. by apply tool_only_quiet. Qed.

Lemma tool_only_mono {A} (n n' : nat) (m : M A) :
  (n ≤ n')%nat → tool_only n m → tool_only n' m.
Proof. intros Hle H w. destruct (H w) as (cmds & He & Hl). exists cmds. split; [done|lia]. Qed.

Lemma tool_only_bind {A B} (n k : nat) (m : M A) (f : A → M B) :
  tool_only n m → (∀ a, tool_only k (f a)) → tool_only (n + k) (m ≫= f).
Proof.
  intros Hm Hf w. destruct (Hm w) as (c1 & He1 & Hl1).
  unfold mbind, M_bind, bind. destruct (m w) as [[a|e] w1]; simpl in *.
  - destruct (Hf a w1) as (c2 & He2 & Hl2). exists (c1 ++ c2).
    rewrite He2, He1, fmap_app, app_assoc, length_app. split; [done|lia].
  - exists c1. split; [done|lia].
Qed.

Lemma tool_only_file_transaction {A} (n : nat) (final : path) (body : path → M A) :
  tool_only n (body (tx_path final)) → tool_only n (file_transaction final body).
Proof.
  intros H w. rewrite events_file_transaction.
  exact (H (rmtree (tx_dir (dirname final)) w)).
Qed.

Lemma tool_only_do_run (cmd : string) (prefix : path) : tool_only 1 (do_run X cmd prefix).
Proof. intros w. exists [cmd]. by rewrite events_do_run. Qed.

Lemma tool_only_run_mosdepth (d : data) (tn : string) (bed : option path) (pb : bool)
    (qz : option (string * list string)) (th : option (list Z)) :
  tool_only 1 (run_mosdepth X d tn bed pb qz th).
Proof.
  unfold run_mosdepth.
  apply (tool_only_bind 0 1); [by apply tool_only_quiet|]. intros fresh.
  apply (tool_only_bind 1 0); [|intros; apply tool_only_ret].
  destruct fresh; cbn [negb]; [apply (tool_only_mono 0); [lia|apply tool_only_ret]|].
  apply tool_only_file_transaction.
  apply (tool_only_bind 1 0); [apply tool_only_do_run|]. intros _.
  repeat (apply (tool_only_bind 0 0); [|intros _]).
  all: apply tool_only_quiet, events_move_from_tx.
Qed.

Lemma tool_only_write_transaction (final : path) (c : content) :
  tool_only 0 (file_transaction final (λ tx, write_file tx c)).
Proof. by apply tool_only_file_transaction, tool_only_quiet. Qed.

Lemma tool_only_subset (callable_file : option path) (vr : path) (d : data) :
  tool_only 0 (_subset_to_variant_regions X callable_file vr d).
Proof.
  unfold _subset_to_variant_regions. destruct callable_file as [c|]; [|by apply tool_only_quiet].
  apply (tool_only_bind 0 0); [by apply tool_only_quiet|]. intros fresh.
  apply (tool_only_bind 0 0); [|intros; apply tool_only_ret].
  destruct fresh; cbn [negb]; [apply tool_only_ret|apply tool_only_write_transaction].
Qed.

Lemma tool_only_create_genome_regions (d : data) :
  tool_only 0 (_create_genome_regions X d).
Proof.
  unfold _create_genome_regions.
  apply (tool_only_bind 0 0); [apply tool_only_write_transaction|intros; apply tool_only_ret].
Qed.

Lemma tool_only_calculate_step (d : data) (t : target) (acc : option path * depth_files) :
  tool_only 1 (calculate_step X d t acc).
Proof.
  destruct t as [[[tn rb] qz] th], acc as [cf dfs]. unfold calculate_step.
  destruct rb as [b|]; [|apply (tool_only_mono 0); [lia|apply tool_only_ret]].
  apply (tool_only_bind 1 0); [apply tool_only_run_mosdepth|intros; apply tool_only_ret].
Qed.

(** X9.  [calculate] runs the depth tool at most three times, once for each
    target of its list, and adds nothing else to the log, whatever its
    outcome. *)
Theorem calculate_tool_budget (bam_file : option path) (d : data) :
  tool_only 3 (calculate X bam_file d).
Proof.
  unfold calculate.
  apply (tool_only_bind 0 3).
  { destruct (variant_regions_merged d);
      [apply tool_only_ret|apply tool_only_create_genome_regions]. }
  intros vr.
  apply (tool_only_bind 0 3); [by apply tool_only_quiet|]. intros fresh.
  apply (tool_only_bind 3 0).
  - destruct fresh; cbn [negb]; [apply (tool_only_mono 0); [lia|apply tool_only_ret]|].
    cbn [for_each].
    apply (tool_only_bind 1 2); [apply tool_only_calculate_step|]. intros acc1.
    apply (tool_only_bind 1 1); [apply tool_only_calculate_step|]. intros acc2.
    apply (tool_only_bind 1 0); [apply tool_only_calculate_step|]. intros acc3.
    apply tool_only_ret.
  - intros [cf dfs].
    apply (tool_only_bind 0 0); [apply tool_only_subset|intros; apply tool_only_ret].
Qed.

Lemma tool_only_read_lines (p : option path) : tool_only 0 (read_lines p).
Proof.
  apply tool_only_quiet. intros w. unfold read_lines.
  destruct p as [p|]; [|done]. by destruct (files w !! p) as [[[?|?] ?]|].
Qed.

Lemma tool_only_copy_plus (src dst : path) : tool_only 0 (copy_plus src dst).
Proof.
  apply tool_only_quiet. intros w. unfold copy_plus. by destruct (files w !! src).
Qed.

Lemma tool_only_read_cache (cache_file : path) (deps : list (option path)) :
  tool_only 0 (_read_cache cache_file deps).
Proof.
  apply tool_only_quiet. intros w.
  destruct (_read_cache cache_file deps w) as [o w'] eqn:H.
  by rewrite (read_cache_world _ _ _ _ _ H).
Qed.

Lemma tool_only_regions_coverage (bed : option path) (tn : string) (d : data) :
  tool_only 1 (regions_coverage X bed tn d).
Proof.
  unfold regions_coverage. destruct (_ ≫= _) as [p|].
  - apply (tool_only_mono 0); [lia|apply tool_only_ret].
  - apply (tool_only_bind 1 0); [apply tool_only_run_mosdepth|intros; apply tool_only_ret].
Qed.

(** X10.  [get_average_coverage] runs the depth tool at most once, and not
    at all for the whole-genome average; it adds nothing else to the log. *)
Theorem get_average_coverage_tool_budget (tn : string) (bed : option path) (d : data)
    (bam : option path) :
  tool_only 1 (get_average_coverage X tn bed d bam) ∧
  tool_only 0 (get_average_coverage X tn None d bam).
Proof.
  assert (∀ b n, (b = None ∨ n = 1%nat) →
                 tool_only n (get_average_coverage X tn b d bam)) as H.
  { intros b n Hb. unfold get_average_coverage.
    apply (tool_only_bind 0 n); [apply tool_only_read_cache|]. intros cache.
    destruct (cache !! "avg_coverage"); [apply (tool_only_mono 0); [lia|apply tool_only_ret]|].
    apply (tool_only_mono (n + 0)); [lia|]. apply (tool_only_bind n 0).
    - case_bool_decide as Hs.
      + destruct Hb as [->| ->]; [by destruct Hs|].
        unfold _average_bed_coverage.
        apply (tool_only_bind 1 0); [apply tool_only_regions_coverage|]. intros p.
        apply (tool_only_bind 0 0); [apply tool_only_read_lines|]. intros ls.
        by apply tool_only_quiet.
      + apply (tool_only_mono 0); [lia|]. by apply tool_only_quiet.
    - intros avg. apply (tool_only_bind 0 0); [by apply tool_only_quiet|].
      intros; apply tool_only_ret. }
  split; apply H; auto.
Qed.

End ToolBudget.

Section SummaryBudget.

Context (X : collaborators) (py : py_version) (abspath : path → path).

Lemma tool_only_calculate_percentiles (dist_file : path) (cutoffs : list Z) (d : data) :
  tool_only 0 (_calculate_percentiles X py dist_file cutoffs d).
Proof.
  unfold _calculate_percentiles.
  apply (tool_only_bind 0 0); [by apply tool_only_quiet|]. intros present.
  destruct present; cbn [negb]; [|apply tool_only_ret].
  apply (tool_only_bind 0 0); [by apply tool_only_quiet|]. intros summarised.
  apply (tool_only_bind 0 0).
  - destruct summarised; cbn [negb]; [apply tool_only_ret|].
    apply tool_only_file_transaction.
    apply (tool_only_bind 0 0); [apply tool_only_read_lines|]. intros ls.
    apply (tool_only_bind 0 0); [by apply tool_only_quiet|].
    intros rows. by apply tool_only_quiet.
  - intros _. apply (tool_only_bind 0 0); [apply tool_only_copy_plus|].
    intros; apply tool_only_ret.
Qed.

(** X11.  The two summary functions run no tool and log nothing, whatever
    their outcome: [_calculate_percentiles] and
    [coverage_region_detailed_stats] only read and copy files. *)
Theorem summaries_run_no_tool (tn : string) (bed : option path) (dist_file : path)
    (cutoffs : list Z) (d : data) (out_dir : string) (w : world) :
  events (_calculate_percentiles X py dist_file cutoffs d w).2 = events w ∧
  events (coverage_region_detailed_stats X py abspath tn bed d out_dir w).2 = events w.
Proof.
  assert (∀ {A} (m : M A) w0, tool_only 0 m → events (m w0).2 = events w0) as Hq.
  { intros A m w0 Hm. destruct (Hm w0) as ([|c cmds] & He & Hl); [|simpl in Hl; lia].
    rewrite He. simpl. apply app_nil_r. }
  split; [apply Hq, tool_only_calculate_percentiles|].
  unfold coverage_region_detailed_stats.
  destruct bed as [b|]; [|done].
  destruct (negb _); [done|].
  destruct (depth d !! tn) as [rd|]; [|done].
  destruct (rd !! "regions") as [cov|]; [|done].
  destruct (rd !! "dist") as [dist|]; [|done].
  destruct (rd !! "thresholds") as [thr|]; [|done].
  match goal with |- events (to_result (?m w)).2 = _ =>
    assert (tool_only 0 m) as Hm; [|specialize (Hq _ m w Hm); by destruct (m w) as [[?|?] ?]] end.
  unfold detailed_stats_files.
  apply (tool_only_bind 0 0); [by apply tool_only_quiet|]. intros fresh.
  apply (tool_only_bind 0 0).
  - destruct fresh; cbn [negb]; [apply tool_only_ret|].
    repeat (apply (tool_only_bind 0 0); [apply tool_only_copy_plus|intros _]).
    apply tool_only_copy_plus.
  - intros _. apply (tool_only_bind 0 0); [apply tool_only_calculate_percentiles|].
    intros; apply tool_only_ret.
Qed.

End SummaryBudget.

(** ** What [calculate] reports, and its two file helpers *)

Section CalculateMore.

Context (X : collaborators).

Lemma run_mosdepth_ok_out (d : data) (tn : string) (bed : option path) (pb : bool)
    (qz : option (string * list string)) (th : option (list Z)) (w w' : world)
    (o : MosdepthCov) :
  run_mosdepth X d tn bed pb qz th w = (Ok o, w') → o = mosdepth_out d tn bed pb qz th.
Proof.
  unfold run_mosdepth. intros H.
  apply bind_ok_inv in H as (fresh & w0 & _ & H).
  apply bind_ok_inv in H as ([] & w1 & _ & H).
  by injection H as <- _.
Qed.

Lemma calculate_step_ok (d : data) (tn : string) (rb : option path)
    (qz : option (string * list string)) (th : option (list Z))
    (acc acc' : option path * depth_files) (w w' : world) :
  calculate_step X d (tn, rb, qz, th) acc w = (Ok acc', w') →
  acc' = match rb with
         | Some _ =>
             let out := mosdepth_out d tn rb false qz th in
             (if bool_decide (tn = "variant_regions") then Cov.quantize out else acc.1,
              <[tn := cur_depth_of out]> acc.2)
         | None => acc
         end.
Proof.
  destruct acc as [cf dfs]. unfold calculate_step. destruct rb as [b|].
  - intros H. apply bind_ok_inv in H as (o & w1 & Hrun & H).
    apply run_mosdepth_ok_out in Hrun as ->. by injection H as <- _.
  - by intros [= <- _].
Qed.

(** The attributes that [calculate] keeps of a bundle with regions. *)
Lemma cur_depth_of_regions (d : data) (tn : string) (b : path)
    (qz : option (string * list string)) (th : option (list Z)) :
  let cur := cur_depth_of (mosdepth_out d tn (Some b) false qz th) in
  cur !! "dist" = Some (add_suffix (mosdepth_prefix d tn) ".mosdepth.dist.txt") ∧
  cur !! "regions" = Some (add_suffix (mosdepth_prefix d tn) ".regions.bed.gz") ∧
  cur !! "thresholds" = Cov.thresholds (mosdepth_out d tn (Some b) false qz th).
Proof.
  unfold cur_depth_of, mosdepth_out. cbn [Cov.dist Cov.regions Cov.thresholds].
  rewrite bool_decide_eq_true_2 by eauto. cbn [foldl fst snd].
  destruct th as [[|t ts]|]; cbn [foldl fst snd]; by simplify_map_eq.
Qed.

(** The entries of the mapping that the loop of [calculate] builds. *)
Lemma reported_targets (c1 c2 c3 : gmap string path) (sv cv : option path) (tn : string)
    (cur : gmap string path) :
  (match cv with Some _ => <["coverage" := c3]> | None => id end)
    ((match sv with Some _ => <["sv_regions" := c2]> | None => id end)
       (<["variant_regions" := c1]> (∅ : gmap string (gmap string path)))) !! tn = Some cur ↔
  tn = "variant_regions" ∧ cur = c1 ∨
  tn = "sv_regions" ∧ is_Some sv ∧ cur = c2 ∨
  tn = "coverage" ∧ is_Some cv ∧ cur = c3.
Proof.
  destruct (decide (tn = "variant_regions")) as [->|Hn1];
    [|destruct (decide (tn = "sv_regions")) as [->|Hn2];
      [|destruct (decide (tn = "coverage")) as [->|Hn3]]];
    destruct sv as [sv|], cv as [cv|]; cbn [id];
    rewrite ?lookup_insert_eq, ?lookup_insert_ne, ?lookup_empty by done;
    (split; [intros Hs|intros [[? Hc]|[[? [Hv Hc]]|[? [Hv Hc]]]]]);
    try done; try (by destruct Hv); try (by subst).
  all: injection Hs as <-.
  all: first [by left | by right; left; split; [|split; [eexists|]]
             | by right; right; split; [|split; [eexists|]]].
Qed.

(** The loop of [calculate] on a stale callable file, read backwards from
    its result. *)
Lemma calculate_stale_inv (bam_file : option path) (d : data) (w w' : world)
    (final : path) (dfs : depth_files) :
  uptodate (files (world_at_check X d w)) (callable_path d) bam_file = false →
  calculate X bam_file d w = (Ok (final, dfs), w') →
  final = add_suffix (splitext_plus_base X
            (add_suffix (mosdepth_prefix d "variant_regions") ".quantized.bed.gz"))
            "-vrsubset.bed" ∧
  ∃ vr, ∀ tn cur, (dfs : gmap string (gmap string path)) !! tn = Some cur ↔
    tn = "variant_regions" ∧
      cur = cur_depth_of
              (mosdepth_out d "variant_regions" (Some vr) false
                 (Some ("0:1:" +:+ PyStr.of_int (coverage_depth_min d) +:+ ":",
                        ["NO_COVERAGE"; "LOW_COVERAGE"; "CALLABLE"])) None) ∨
    tn = "sv_regions" ∧ is_Some (get_sv_bed X d) ∧
      cur = cur_depth_of (mosdepth_out d "sv_regions" (get_sv_bed X d) false None None) ∨
    tn = "coverage" ∧ is_Some (coverage d) ∧
      cur = cur_depth_of
              (mosdepth_out d "coverage" (coverage d) false None (Some DEPTH_THRESHOLDS)).
Proof.
  unfold world_at_check, calculate. fold (callable_path d). intros Hstale Hrun.
  apply bind_ok_inv in Hrun as (vr & w1 & Hvr & Hrun).
  assert (uptodate (files w1) (callable_path d) bam_file = false) as Hstale1.
  { destruct (variant_regions_merged d).
    - by injection Hvr as _ <-.
    - by rewrite Hvr in Hstale. }
  clear Hstale Hvr.
  apply bind_ok_inv in Hrun as (fresh & w2 & Hup & Hrun).
  unfold file_uptodate in Hup. rewrite Hstale1 in Hup. injection Hup as <- <-.
  cbn [negb] in Hrun.
  apply bind_ok_inv in Hrun as ([cf m] & w3 & Hloop & Hrun).
  cbn [for_each] in Hloop.
  apply bind_ok_inv in Hloop as (acc1 & wa & H1 & Hloop).
  apply bind_ok_inv in Hloop as (acc2 & wb & H2 & Hloop).
  apply bind_ok_inv in Hloop as (acc3 & wc & H3 & Hloop).
  injection Hloop as -> _.
  apply calculate_step_ok in H1, H2, H3. subst acc1 acc2.
  cbn [fst snd] in H3.
  apply bind_ok_inv in Hrun as (fc & w4 & Hsub & Hrun).
  injection Hrun as <- <- _.
  assert (cf = Some (add_suffix (mosdepth_prefix d "variant_regions") ".quantized.bed.gz")
          ∧ m = (match coverage d with
                 | Some _ => <["coverage" := cur_depth_of
                       (mosdepth_out d "coverage" (coverage d) false None (Some DEPTH_THRESHOLDS))]>
                 | None => id
                 end)
                ((match get_sv_bed X d with
                  | Some _ => <["sv_regions" := cur_depth_of
                       (mosdepth_out d "sv_regions" (get_sv_bed X d) false None None)]>
                  | None => id
                  end)
                 (<["variant_regions" := cur_depth_of
                       (mosdepth_out d "variant_regions" (Some vr) false
                          (Some ("0:1:" +:+ PyStr.of_int (coverage_depth_min d) +:+ ":",
                                 ["NO_COVERAGE"; "LOW_COVERAGE"; "CALLABLE"])) None)]> ∅)))
    as [-> ->].
  { destruct (get_sv_bed X d), (coverage d); cbn [fst snd] in H3;
      injection H3 as -> ->; (split; [|done]);
      repeat (case_bool_decide; try done); done. }
  split.
  - destruct (subset_to_variant_regions_ok X
                (add_suffix (mosdepth_prefix d "variant_regions") ".quantized.bed.gz")
                vr d w3) as (w5 & Hs & _).
    rewrite Hs in Hsub. by injection Hsub as <- _.
  - exists vr. intros tn cur. clear Hsub. unfold depth_files in *.
    apply reported_targets.
Qed.

(** Every entry that [calculate] reports is made of a bundle with regions;
    only the target [coverage] asks for thresholds. *)
Lemma calculate_stale_entry (bam_file : option path) (d : data) (w w' : world)
    (final : path) (dfs : depth_files) (tn : string) (cur : gmap string path) :
  uptodate (files (world_at_check X d w)) (callable_path d) bam_file = false →
  calculate X bam_file d w = (Ok (final, dfs), w') →
  (dfs : gmap string (gmap string path)) !! tn = Some cur →
  ∃ b qz, cur = cur_depth_of (mosdepth_out d tn (Some b) false qz
                   (if bool_decide (tn = "coverage") then Some DEPTH_THRESHOLDS else None)).
Proof.
  intros Hstale Hrun Hcur.
  destruct (calculate_stale_inv _ _ _ _ _ _ Hstale Hrun) as (_ & vr & Hdfs).
  apply Hdfs in Hcur.
  destruct Hcur as [[-> ->]|[[-> [[sv Hsv] ->]]|[-> [[cv Hcv] ->]]]];
    rewrite ?Hsv, ?Hcv; by eexists _, _.
Qed.

(** X12.  What [calculate] reports when the callable file of the old layout
    is stale: the callable regions are the sub-setted quantized artifact of
    the target [variant_regions]; the mapping of depth files has an entry for
    [variant_regions] and for each of [sv_regions] and [coverage] that has a
    region file, and no other; each entry names the distribution and the
    regions artifact of its target, and the thresholds artifact for
    [coverage] only.  The quantized artifact is in no entry. *)
Theorem calculate_stale_report (bam_file : option path) (d : data) (w w' : world)
    (final : path) (dfs : depth_files) :
  uptodate (files (world_at_check X d w)) (callable_path d) bam_file = false →
  calculate X bam_file d w = (Ok (final, dfs), w') →
  final = add_suffix (splitext_plus_base X
            (add_suffix (mosdepth_prefix d "variant_regions") ".quantized.bed.gz"))
            "-vrsubset.bed" ∧
  (∀ tn, is_Some (dfs !! tn) ↔
         tn = "variant_regions" ∨
         tn = "sv_regions" ∧ is_Some (get_sv_bed X d) ∨
         tn = "coverage" ∧ is_Some (coverage d)) ∧
  (∀ tn cur, dfs !! tn = Some cur →
     cur !! "dist" = Some (add_suffix (mosdepth_prefix d tn) ".mosdepth.dist.txt") ∧
     cur !! "regions" = Some (add_suffix (mosdepth_prefix d tn) ".regions.bed.gz") ∧
     cur !! "thresholds" =
       (if bool_decide (tn = "coverage")
        then Some (add_suffix (mosdepth_prefix d tn) ".thresholds.bed.gz") else None) ∧
     cur !! "quantize" = None).
Proof.
  intros Hstale Hrun.
  destruct (calculate_stale_inv _ _ _ _ _ _ Hstale Hrun) as (Hfinal & vr & Hdfs).
  split; [done|]. split.
  - intros tn. split.
    + intros [cur Hcur]. apply Hdfs in Hcur. tauto.
    + intros [->|[[-> Hv]|[-> Hv]]]; eexists; apply Hdfs; eauto 6.
  - intros tn cur Hcur.
    destruct (calculate_stale_entry _ _ _ _ _ _ _ _ Hstale Hrun Hcur) as (b & qz & ->).
    destruct (cur_depth_of_regions d tn b qz
                (if bool_decide (tn = "coverage") then Some DEPTH_THRESHOLDS else None))
      as (Hd & Hr & Ht).
    split; [done|]. split; [done|]. split.
    + rewrite Ht. by case_bool_decide.
    + unfold cur_depth_of, mosdepth_out. cbn [Cov.dist Cov.regions Cov.thresholds].
      rewrite bool_decide_eq_true_2 by eauto. cbn [foldl fst snd].
      case_bool_decide; cbn [foldl fst snd]; by simplify_map_eq.
Qed.

(** A write inside a transaction: the final path gets the content with the
    time of the write, the temporary directory is emptied, and every other
    file is as it was. *)
Lemma transaction_write_files (final : path) (c : content) (w : world) :
  ∃ w', file_transaction final (λ tx, write_file tx c) w = (Ok tt, w') ∧
        files w' !! final = Some (File c (clock w)) ∧
        clock w' = clock w + 1 ∧
        (∀ p, p ≠ final → dirname p ≠ tx_dir (dirname final) →
              files w' !! p = files w !! p).
Proof.
  eexists. split; [by apply file_transaction_ok|].
  cbn [write_file files clock]. rewrite lookup_insert_eq.
  assert (dirname final ≠ tx_dir (dirname final)) as Hne
    by (intros H; symmetry in H; exact (tx_dir_ne _ H)).
  split; [|split; [done|]].
  - rewrite rmtree_lookup_ne by done. cbn [set_files files]. apply lookup_insert_eq.
  - intros p Hp Hd. rewrite rmtree_lookup_ne by done. cbn [set_files files].
    rewrite lookup_insert_ne by done.
    rewrite lookup_delete_ne by (intros <-; by apply Hd).
    rewrite lookup_insert_ne by (intros <-; by apply Hd).
    by apply rmtree_lookup_ne.
Qed.

(** X13.  [_create_genome_regions] has no freshness test: every call writes
    the region file again, one line for each non-alt contig, with the time of
    the call, whatever was at that path; no other file outside its temporary
    directory changes. *)
Theorem create_genome_regions_rewrites (d : data) (w : world) :
  let vr := Path (dir_join (dir_join (work_dir d) "coverage") (sample_name d))
                 "target-genome.bed" in
  ∃ w', _create_genome_regions X d w = (Ok vr, w') ∧
        files w' !! vr =
          Some (File (Text ((λ c, c_name c +:+ TAB +:+ "0" +:+ TAB +:+ PyStr.of_int (c_size c))
                              <$> get_noalt_contigs X d)) (clock w)) ∧
        clock w' = clock w + 1 ∧
        (∀ p, p ≠ vr → dirname p ≠ tx_dir (dirname vr) → files w' !! p = files w !! p).
Proof.
  intros vr. unfold _create_genome_regions, safe_makedir. fold vr.
  match goal with |- context [write_file _ ?c] =>
    destruct (transaction_write_files vr c w) as (w' & Htx & Hvr & Hclock & Hframe) end.
  exists w'. split; [|done].
  erewrite bind_ok by exact Htx. reflexivity.
Qed.


End CalculateMore.

(** ** Coverage Cache: names, round trip, the whole-genome average *)

Section CacheMore.

Context (X : collaborators).

Lemma string_app_inj_r (a b c : string) : a +:+ c = b +:+ c → a = b.
Proof.
  revert b. induction a as [|x a IH]; intros [|y b] H.
  - done.
  - apply (f_equal String.length) in H.
    change (String y b +:+ c) with (String y (b +:+ c)) in H.
    rewrite !string_length_app in H. simpl in H. rewrite ?string_length_app in H. lia.
  - apply (f_equal String.length) in H.
    change (String x a +:+ c) with (String x (a +:+ c)) in H.
    rewrite !string_length_app in H. simpl in H. rewrite ?string_length_app in H. lia.
  - change (String x (a +:+ c) = String y (b +:+ c)) in H.
    injection H as -> H. f_equal. by apply IH.
Qed.


(** X16.  What [_write_cache] writes, [_read_cache] returns: after the
    write, the cache is fresh relative to every named input that exists, is
    another file and is not newer than the clock. *)
Theorem cache_round_trip (cache : gmap string Q) (f : path) (deps : list (option path))
    (w : world) :
  (∀ fn, fn ∈ omap id deps → fn ≠ f ∧ ∃ g, files w !! fn = Some g ∧ mtime g ≤ clock w) →
  ∃ w1, _write_cache cache f w = (Ok tt, w1) ∧ _read_cache f deps w1 = (Ok cache, w1).
Proof.
  intros Hdeps. eexists. split; [reflexivity|].
  eapply read_cache_fresh; [|cbn [files]; apply lookup_insert_eq].
  intros fn Hin. destruct (Hdeps fn Hin) as (Hne & g & Hg & Hold).
  unfold uptodate. cbn [files mbind option_bind].
  rewrite lookup_insert_eq, lookup_insert_ne by done. rewrite Hg. cbn [mtime].
  by apply Z.leb_le.
Qed.

(** X17.  With no input to compare with (no alignment file and no region
    file) the cache file is read whatever its age; when it does not exist,
    [get_average_coverage] raises IOError and computes nothing. *)
Theorem get_average_coverage_no_inputs (tn : string) (d : data) (w : world) :
  or_else (align_bam d) (work_bam d) = None →
  files w !! _get_cache_file d tn = None →
  get_average_coverage X tn None d None w = (Raise IOError, w).
Proof.
  intros Hbam Hfile. unfold get_average_coverage. rewrite Hbam.
  eapply bind_raise. unfold _read_cache, load_yaml. cbn [omap id forallb].
  by rewrite Hfile.
Qed.



End CacheMore.

(** ** Region-based average: every input, and the range of the result *)

Section AverageMore.

Lemma depth_line_malformed (l : string) :
  region_of_line l = None → depth_line l = Raise ValueError.
Proof.
  unfold region_of_line, depth_line.
  destruct (PyStr.split l) as [|t0 [|t1 [|t2 rest]]]; try done.
  { simpl. by destruct (PyStr.to_int t1). }
  change (take 2 (drop 1 (t0 :: t1 :: t2 :: rest))) with [t1; t2].
  simpl. destruct (PyStr.to_int t1) as [a|]; [|done].
  destruct (PyStr.to_int t2) as [b|]; [|done]. simpl.
  by destruct (last (t2 :: rest) ≫= PyStr.to_float).
Qed.

Lemma depth_loop_malformed (ls : list string) (avg_covs : list Q) (total_len : Z) :
  regions_of_lines ls = None → depth_loop ls avg_covs total_len = Raise ValueError.
Proof.
  revert avg_covs total_len.
  induction ls as [|l ls IH]; intros avg_covs total_len; simpl; [done|].
  destruct (PyStr.startswith "#" l); [by apply IH|].
  destruct (region_of_line l) as [r|] eqn:Hr; simpl.
  - destruct (regions_of_lines ls) as [rs|]; [done|]. intros _.
    rewrite (depth_line_region _ _ Hr). simpl. by apply IH.
  - intros _. by rewrite (depth_line_malformed _ Hr).
Qed.


Lemma weighted_depth_bounds (rs : list region) (lo hi : Q) :
  Forall (λ r, r_start r ≤ r_end r ∧ (lo <= r_depth r)%Q ∧ (r_depth r <= hi)%Q) rs →
  (lo * inject_Z (total_length rs) <= weighted_depth rs)%Q ∧
  (weighted_depth rs <= hi * inject_Z (total_length rs))%Q.
Proof.
  induction 1 as [|r rs (Hlen & Hlo & Hhi) _ [IHlo IHhi]].
  - unfold total_length, weighted_depth. simpl. split; rewrite Qmult_0_r; apply Qle_refl.
  - change (total_length (r :: rs)) with (r_length r + total_length rs).
    change (weighted_depth (r :: rs))
      with (r_depth r * inject_Z (r_length r) + weighted_depth rs)%Q.
    rewrite inject_Z_plus, !Qmult_plus_distr_r.
    assert (0 <= inject_Z (r_length r))%Q as Hnn.
    { change (inject_Z 0 <= inject_Z (r_length r))%Q. rewrite <- Zle_Qle.
      unfold r_length. lia. }
    split; apply Qplus_le_compat; try done; by apply Qmult_le_compat_r.
Qed.


End AverageMore.

(** ** Percentile Aggregator: the last line, the empty file, the old summary *)

Section PercentilesMore.

Context (X : collaborators) (py : py_version).

(** The loop leaves the binding of the last line, whatever that line is. *)
Lemma percentile_loop_binding (cutoffs : list Z) (lo hi : Z) (sample : string)
    (ls : list string) (rs : list (option total_row)) (st : pct_state) :
  py_min cutoffs = Ok lo → py_max cutoffs = Ok hi →
  dist_lines ls = Some rs →
  ∃ b, percentile_loop cutoffs sample ls st = Ok (st.1 ++ in_range_rows lo hi sample rs, b) ∧
       (ls = [] → b = st.2) ∧
       ∀ l r, last ls = Some l → last rs = Some r → b = Some (binding_of l r).
Proof.
  intros Hlo Hhi. revert rs st.
  induction ls as [|l ls IH]; intros rs st; simpl.
  - intros [= <-]. exists st.2. split; [|done].
    destruct st. unfold in_range_rows. simpl. by rewrite app_nil_r.
  - destruct (dist_line l) as [r|] eqn:Hr; [|done]. simpl.
    destruct (dist_lines ls) as [rs'|] eqn:Hrs; [|done]. simpl.
    intros [= <-].
    rewrite (percentile_step_line _ _ _ _ _ _ _ Hlo Hhi Hr). simpl.
    destruct (IH rs' (st.1 ++ in_range_rows lo hi sample [r], Some (binding_of l r)) eq_refl)
      as (b & Hloop & Hnil & Hlast).
    exists b. split; [|split; [done|]].
    + rewrite Hloop. simpl. rewrite <- app_assoc.
      rewrite (in_range_rows_cons _ _ _ r rs'), (in_range_rows_cons _ _ _ r []).
      destruct r as [t|]; [|done].
      by destruct ((lo <=? t_count t) && (t_count t <=? hi)).
    + intros l' r' Hl Hr'. destruct ls as [|l2 ls].
      * simpl in Hrs. injection Hrs as <-. simpl in Hl, Hr'.
        injection Hl as <-. injection Hr' as <-. by apply Hnil.
      * destruct rs' as [|r2 rs'].
        { simpl in Hrs. destruct (dist_line l2); [|done]. simpl in Hrs.
          by destruct (dist_lines ls). }
        by apply Hlast.
Qed.

Lemma dist_lines_last (ls : list string) (rs : list (option total_row)) (l : string) :
  dist_lines ls = Some rs → last ls = Some l →
  ∃ r, last rs = Some r ∧ dist_line l = Some r.
Proof.
  revert rs. induction ls as [|l1 ls IH]; intros rs; [done|]. simpl.
  destruct (dist_line l1) as [r1|] eqn:Hr1; [|done]. simpl.
  destruct (dist_lines ls) as [rs'|] eqn:Hrs; [|done]. simpl.
  intros [= <-] Hlast. destruct ls as [|l2 ls].
  - injection Hlast as <-. simpl in Hrs. injection Hrs as <-. by exists r1.
  - destruct (IH rs' eq_refl Hlast) as (r & Hr & Hl). exists r. split; [|done].
    destruct rs' as [|r2 rs']; [done|]. exact Hr.
Qed.




End PercentilesMore.

(** ** Detailed statistics and the ready depth files *)

Section DetailedStatsMore.

Context (X : collaborators) (py : py_version) (abspath : path → path).

Lemma preserves_quiet {A} (P : path → Prop) (m : M A) :
  (∀ w, (m w).2 = w) → preserves P m.
Proof.
  intros H w o w' Hrun p _. specialize (H w). rewrite Hrun in H. simpl in H. by subst.
Qed.

Lemma preserves_read_lines (P : path → Prop) (p : option path) : preserves P (read_lines p).
Proof.
  apply preserves_quiet. intros w. unfold read_lines.
  destruct p as [p|]; [|done]. by destruct (files w !! p) as [[[?|?] ?]|].
Qed.

Lemma preserves_copy_plus (P : path → Prop) (src dst : path) :
  (∀ p, P p → p ≠ dst) → preserves P (copy_plus src dst).
Proof.
  intros HP w o w' Hrun p Hp. unfold copy_plus in Hrun.
  destruct (files w !! src) as [f|].
  - exact (preserves_write_file P dst (body f) HP w o w' Hrun p Hp).
  - by injection Hrun as _ <-.
Qed.

(** Frame of [_calculate_percentiles]: it changes the summary, its copy and
    its temporary directory, and nothing else. *)
Lemma preserves_calculate_percentiles (P : path → Prop) (dist_file : path)
    (cutoffs : list Z) (d : data) :
  let out_total_file := append_stem X dist_file "_total_summary" in
  let out_total_fixed :=
    Path (dirname out_total_file) (sample_name d +:+ "_bcbio_coverage_avg.txt") in
  (∀ p, P p → p ≠ out_total_file ∧ p ≠ out_total_fixed ∧
              dirname p ≠ tx_dir (dirname out_total_file)) →
  preserves P (_calculate_percentiles X py dist_file cutoffs d).
Proof.
  intros out_total_file out_total_fixed HP. unfold _calculate_percentiles.
  fold out_total_file out_total_fixed.
  apply preserves_bind; [by apply preserves_quiet|]. intros present.
  destruct present; cbn [negb]; [|apply preserves_ret].
  apply preserves_bind; [by apply preserves_quiet|]. intros summarised.
  apply preserves_bind.
  - destruct summarised; cbn [negb]; [apply preserves_ret|].
    apply preserves_file_transaction.
    { intros p Hp. destruct (HP p Hp) as (? & ? & ?). done. }
    apply preserves_bind; [apply preserves_read_lines|]. intros ls.
    apply preserves_bind; [by apply preserves_quiet|]. intros rows.
    apply preserves_write_file. intros p Hp ->.
    destruct (HP _ Hp) as (_ & _ & Hd). by apply Hd.
  - intros _. apply preserves_bind; [|intros; apply preserves_ret].
    apply preserves_copy_plus. intros p Hp. by destruct (HP p Hp) as (? & ? & ?).
Qed.

(** X25.  What [calculate] reports for the targets [variant_regions] and
    [sv_regions] cannot be summarised: their entries have no thresholds
    artifact, and [coverage_region_detailed_stats] on a context that holds the
    reported mapping raises KeyError for the key ["thresholds"]. *)
Theorem detailed_stats_of_reported_target (bam_file : option path) (d d' : data)
    (w w' w2 : world) (final : path) (dfs : depth_files) (tn : string) (bed : path)
    (fb : file) (out_dir : string) :
  uptodate (files (world_at_check X d w)) (callable_path d) bam_file = false →
  calculate X bam_file d w = (Ok (final, dfs), w') →
  depth d' = dfs → tn ≠ "coverage" → is_Some (dfs !! tn) →
  files w2 !! bed = Some fb →
  coverage_region_detailed_stats X py abspath tn (Some bed) d' out_dir w2
    = (inl (KeyError "thresholds"), w2).
Proof.
  intros Hstale Hrun Hdepth Htn [cur Hcur] Hbed.
  destruct (calculate_stale_entry X _ _ _ _ _ _ _ _ Hstale Hrun Hcur) as (b & qz & ->).
  rewrite bool_decide_eq_false_2 in Hcur by done.
  destruct (cur_depth_of_regions d tn b qz None) as (Hd & Hr & Ht).
  unfold coverage_region_detailed_stats. rewrite Hbed, Hdepth.
  rewrite bool_decide_eq_true_2 by eauto. cbn [negb].
  unfold depth_files in *. rewrite Hcur, Hr, Hd, Ht. reflexivity.
Qed.

(** X26.  The entries are looked up before any file is touched: with a
    region file that exists, a context without an entry for the target
    raises TypeError, and an entry that lacks one of the keys ["regions"],
    ["dist"], ["thresholds"] raises KeyError for a key that it lacks; the
    world is as it was. *)
Theorem detailed_stats_missing_entry (tn : string) (bed : path) (d : data)
    (out_dir : string) (w : world) (fb : file) :
  files w !! bed = Some fb →
  (depth d !! tn = None →
   coverage_region_detailed_stats X py abspath tn (Some bed) d out_dir w
     = (inl (PyExn TypeError), w)) ∧
  (∀ rd key, depth d !! tn = Some rd →
     key ∈ ["regions"; "dist"; "thresholds"] → rd !! key = None →
     ∃ key', coverage_region_detailed_stats X py abspath tn (Some bed) d out_dir w
               = (inl (KeyError key'), w) ∧
             key' ∈ ["regions"; "dist"; "thresholds"] ∧ rd !! key' = None).
Proof.
  intros Hbed. unfold coverage_region_detailed_stats. rewrite Hbed.
  rewrite bool_decide_eq_true_2 by eauto. cbn [negb].
  split; [by intros ->|].
  intros rd key -> Hkey Hnone.
  destruct (rd !! "regions") as [cov|] eqn:Hcov.
  2:{ exists "regions". split; [done|]. split; [apply list_elem_of_here|done]. }
  destruct (rd !! "dist") as [dist|] eqn:Hdist.
  2:{ exists "dist". split; [done|].
      split; [apply list_elem_of_further, list_elem_of_here|done]. }
  destruct (rd !! "thresholds") as [thr|] eqn:Hthr.
  2:{ exists "thresholds". split; [done|].
      split; [do 2 apply list_elem_of_further; apply list_elem_of_here|done]. }
  rewrite !elem_of_cons, elem_of_nil in Hkey.
  destruct Hkey as [->|[->|[->|[]]]]; congruence.
Qed.


(** X28.  One freshness test guards the three copies: when the copy of the
    regions artifact is fresh and there is no copy of the distribution
    artifact, nothing is copied and nothing is summarised, and the three
    output paths are returned although two of them may not exist. *)
Theorem detailed_stats_fresh_copies_nothing (tn : string) (bed : path) (d : data)
    (out_dir : string) (w : world) (fb : file) (rd : gmap string path)
    (cov dist thr : path) :
  let out_cov := Path out_dir (basename cov) in
  let out_dist := Path out_dir (basename dist) in
  let out_thr := Path out_dir (basename thr) in
  files w !! bed = Some fb →
  depth d !! tn = Some rd →
  rd !! "regions" = Some cov → rd !! "dist" = Some dist → rd !! "thresholds" = Some thr →
  uptodate (files w) out_cov (Some cov) = true →
  files w !! out_dist = None →
  coverage_region_detailed_stats X py abspath tn (Some bed) d out_dir w
    = (inr [out_cov; out_dist; out_thr], w).
Proof.
  intros out_cov out_dist out_thr Hbed Hdepth Hcov Hdist Hthr Hfresh Habsent.
  unfold coverage_region_detailed_stats. rewrite Hbed, Hdepth, Hcov, Hdist, Hthr.
  rewrite bool_decide_eq_true_2 by eauto. cbn [negb].
  unfold detailed_stats_files. fold out_cov out_dist out_thr.
  erewrite bind_ok by (unfold file_uptodate; by rewrite Hfresh). cbn [negb].
  erewrite bind_ok by reflexivity.
  unfold _calculate_percentiles.
  erewrite bind_ok.
  2:{ erewrite bind_ok by (unfold file_exists; by rewrite Habsent).
      rewrite bool_decide_eq_false_2 by (by intros [? ?]). reflexivity. }
  reflexivity.
Qed.

(** X29.  A ready regions file is used as it is: when the context names one
    for the target, [_average_bed_coverage] runs no tool and changes nothing,
    whatever the region file asked for and whatever the age of the ready
    file; when the ready file does not exist it raises IOError. *)
Theorem average_bed_coverage_ready (bed : option path) (tn : string) (d : data)
    (w : world) (ready : path) :
  depth d !! tn ≫= (.!! "regions") = Some ready →
  regions_coverage X bed tn d w = (Ok (Some ready), w) ∧
  (_average_bed_coverage X bed tn d w).2 = w ∧
  (files w !! ready = None → _average_bed_coverage X bed tn d w = (Raise IOError, w)).
Proof.
  intros Hready.
  assert (regions_coverage X bed tn d w = (Ok (Some ready), w)) as Hcov
    by (unfold regions_coverage; by rewrite Hready).
  split; [done|]. unfold _average_bed_coverage.
  erewrite bind_ok by exact Hcov. split.
  - unfold mbind, M_bind, bind, read_lines, lift.
    destruct (files w !! ready) as [[[ls|doc] t]|]; try done;
      by destruct (average_of_lines ls).
  - intros Habsent. eapply bind_raise. unfold read_lines. by rewrite Habsent.
Qed.

End DetailedStatsMore.

(** * The further properties on the sample inputs *)

Module MoreRuns.
Import Sample Edge.

(** X1 on the sample: once classified, a second call changes nothing. *)
Lemma assign_interval_sample_once :
  ∃ d' w', assign_interval (X tool_ok) d w = (Ok d', w') ∧
           is_Some (coverage_interval d') ∧
           assign_interval (X tool_ok) d' w' = (Ok d', w').
Proof.
  destruct (assign_interval (X tool_ok) d w) as [[d'|e] w'] eqn:Hrun.
  - exists d', w'. split; [done|].
    exact (assign_interval_sets_once (X tool_ok) d d' w w' Hrun).
  - vm_compute in Hrun. discriminate.
Defined.

(** X2 on a reference without contigs. *)
Lemma assign_interval_no_contig :
  assign_interval X_empty_ref d w = (Raise ZeroDivisionError, w).
Proof. apply assign_interval_empty_reference; reflexivity. Defined.



(** X6 on the sample: the three artifacts of the target [coverage] carry
    the time of the run. *)
Lemma sample_run_delivers :
  ∃ w', run tool_ok w = (Ok out, w') ∧
        ∀ p, p ∈ artifact_paths out → ∃ ls, files w' !! p = Some (File (Text ls) 5).
Proof.
  apply (run_mosdepth_delivers (X tool_ok) d "coverage" (Some targets) false None
           (Some DEPTH_THRESHOLDS) w).
  - vm_compute. reflexivity.
  - reflexivity.
  - intros sfx Hin. unfold artifact_paths in Hin. cbn in Hin.
    rewrite !elem_of_cons, elem_of_nil in Hin.
    destruct Hin as [H|[H|[H|[]]]]; injection H as H;
      apply (String.app_inj "") in H; subst sfx; cbn;
      repeat first [apply list_elem_of_here | apply list_elem_of_further].
Defined.

(** X7 on the sample, with a tool that leaves no quantized file. *)
Lemma regions_without_distribution :
  ∃ w', run_mosdepth (X tool_no_quantized) d "variant_regions" (Some targets) false
          (Some ("0:1:4:", ["NO_COVERAGE"; "LOW_COVERAGE"; "CALLABLE"])) None w
          = (Raise IOError, w') ∧
        left_at (mosdepth_prefix d "variant_regions") 5 ".regions.bed.gz" w' ∧
        files w' !! Path "/w/coverage/S" "S-variant_regions.mosdepth.dist.txt" = None.
Proof.
  apply (run_mosdepth_partial_delivery (X tool_no_quantized) d "variant_regions" targets
           ("0:1:4:", ["NO_COVERAGE"; "LOW_COVERAGE"; "CALLABLE"]) None w).
  - vm_compute. reflexivity.
  - reflexivity.
  - cbn. apply list_elem_of_further, list_elem_of_here.
  - cbn. intros H.
    repeat (apply elem_of_cons in H as [H|H]; [discriminate|]).
    by apply elem_of_nil in H.
Defined.


(** X12 on the sample, which has a [coverage] target and no SV regions. *)
Lemma calculate_sample_report :
  ∃ r w', calculate (X tool_ok) (Some bam) d w = (Ok r, w') ∧
    r.1 = Path "/w/coverage/S" "S-variant_regions.quantized-vrsubset.bed" ∧
    r.2 !! "sv_regions" = None ∧ is_Some (r.2 !! "coverage").
Proof.
  apply on_success; [|vm_compute; exact I].
  intros [final dfs] w' Hrun.
  destruct (calculate_stale_report (X tool_ok) (Some bam) d w w' final dfs)
    as (Hf & Hk & _); [vm_compute; reflexivity|exact Hrun|].
  cbn [fst snd]. split; [rewrite Hf; vm_compute; reflexivity|]. split.
  - destruct (dfs !! "sv_regions") as [cur|] eqn:E; [|done].
    assert (is_Some (dfs !! "sv_regions")) as Hs by (rewrite E; by eexists).
    apply Hk in Hs as [Hs|[[_ [? Hs]]|[Hs _]]]; discriminate.
  - apply Hk. right; right. split; [done|by eexists].
Defined.



(** X16 on the sample: a cache written now is fresh relative to the
    alignment and the target file. *)
Lemma cache_written_then_read :
  ∃ w1, _write_cache {["avg_coverage" := 20%Q]} (_get_cache_file d "coverage") w = (Ok tt, w1) ∧
        _read_cache (_get_cache_file d "coverage") [Some bam; Some targets] w1
          = (Ok {["avg_coverage" := 20%Q]}, w1).
Proof.
  apply (cache_round_trip {["avg_coverage" := 20%Q]} (_get_cache_file d "coverage")
           [Some bam; Some targets] w).
  intros fn Hin. cbn in Hin. rewrite !elem_of_cons, elem_of_nil in Hin.
  destruct Hin as [->|[->|[]]]; (split; [discriminate|]); eexists;
    (split; [vm_compute; reflexivity|simpl; lia]).
Defined.

(** X17 on the sample without alignment file. *)
Lemma average_without_inputs :
  get_average_coverage (X tool_ok) "genome" None d_no_bam None w = (Raise IOError, w).
Proof. apply get_average_coverage_no_inputs; reflexivity. Defined.







(** X25 on the sample: the entry that [calculate] reports for
    [variant_regions] has no thresholds artifact. *)
Lemma reported_variant_regions_lack_thresholds :
  ∃ r w', calculate (X tool_ok) (Some bam) d w = (Ok r, w') ∧
    coverage_region_detailed_stats (X tool_ok) Py3 id "variant_regions" (Some targets)
      (with_depth r.2 d) "/w/final" w = (inl (KeyError "thresholds"), w).
Proof.
  apply on_success; [|vm_compute; exact I].
  intros [final dfs] w' Hrun. cbn [snd].
  assert (uptodate (files (world_at_check (X tool_ok) d w)) (callable_path d) (Some bam) = false)
    as Hstale by (vm_compute; reflexivity).
  apply (detailed_stats_of_reported_target (X tool_ok) Py3 id (Some bam) d (with_depth dfs d)
           w w' w final dfs "variant_regions" targets (File (Text ["chr1 0 200"]) 1) "/w/final"
           Hstale Hrun).
  - reflexivity.
  - discriminate.
  - destruct (calculate_stale_inv _ _ _ _ _ _ _ Hstale Hrun) as (_ & vr & Hdfs).
    eexists. apply Hdfs. left. split; reflexivity.
  - vm_compute. reflexivity.
Defined.

(** X26 on the sample before any depth file is known. *)
Lemma detailed_stats_without_depth :
  coverage_region_detailed_stats (X tool_ok) Py3 id "coverage" (Some targets) d "/w/final" w
    = (inl (PyExn TypeError), w).
Proof.
  apply (proj1 (detailed_stats_missing_entry (X tool_ok) Py3 id "coverage" targets d
                  "/w/final" w (File (Text ["chr1 0 200"]) 1) eq_refl)).
  reflexivity.
Defined.


(** X28 on the sample with a fresh copy of the regions artifact only. *)
Lemma fresh_copy_returns_missing_files :
  coverage_region_detailed_stats (X tool_ok) Py3 id "coverage" (Some targets) d_depth
    "/w/final" w_copied
  = (inr [Path "/w/final" "S-coverage.regions.bed.gz";
          Path "/w/final" "S-coverage.mosdepth.dist.txt";
          Path "/w/final" "S-coverage.thresholds.bed.gz"], w_copied).
Proof.
  eapply (detailed_stats_fresh_copies_nothing (X tool_ok) Py3 id "coverage" targets d_depth
            "/w/final" w_copied _ (cur_depth_of out)
            (Path "/w/coverage/S" "S-coverage.regions.bed.gz")
            (Path "/w/coverage/S" "S-coverage.mosdepth.dist.txt")
            (Path "/w/coverage/S" "S-coverage.thresholds.bed.gz"));
    vm_compute; reflexivity.
Defined.

(** X29 on the sample before the depth run: the ready file is named but
    does not exist. *)
Lemma ready_file_missing :
  _average_bed_coverage (X tool_ok) (Some targets) "coverage" d_depth w = (Raise IOError, w).
Proof.
  apply (average_bed_coverage_ready (X tool_ok) (Some targets) "coverage" d_depth w
           (Path "/w/coverage/S" "S-coverage.regions.bed.gz")); vm_compute; reflexivity.
Defined.

End MoreRuns.
